(** * SMJ mobile client: login screen and price dashboard

  A shallow embedding of the two screens of the application,
  [src/app/login.tsx] (LoginScreen) and the dashboard screen
  (DashboardScreen), together with the part of the JavaScript runtime
  they rely on: dynamically typed JSON values, truthiness, the [||]
  operator, property reads, [String.prototype.includes] and
  [String.prototype.trim], the outcome of a [fetch] call, React state
  updates and interval timers.

  Asynchronous functions are split at their [await]: a synchronous
  prefix that runs when the function is called, and a continuation
  that runs when the network call settles. *)

From Stdlib Require Import ZArith NArith String Ascii List Bool Lia DecimalString.
From Stdlib Require Import Floats.SpecFloat.
From stdpp Require Import base strings gmap.
Import ListNotations.

Open Scope string_scope.

(* ===================================================================== *)
(** * The JavaScript fragment used by the screens *)
(* ===================================================================== *)

Module JS.

(** Values as [response.json()] and property reads produce them.  A number
    is an IEEE-754 double; strings are sequences of code units below 256. *)
#[warnings="-register-all"] Inductive value : Type :=
| VUndefined
| VNull
| VBool (b : bool)
| VNum (x : spec_float)
| VStr (s : string)
| VArr (l : list value)
| VObj (m : gmap string value).

(** ToBoolean: [undefined], [null], [false], [0], [-0], [NaN] and the
    empty string are falsy, everything else is truthy. *)
Definition truthy (v : value) : bool :=
  match v with
  | VUndefined | VNull => false
  | VBool b => b
  | VNum (S754_zero _) | VNum S754_nan => false
  | VNum _ => true
  | VStr s => negb (s =? "")
  | VArr _ | VObj _ => true
  end.

(** [a || b] *)
Definition or (a b : value) : value := if truthy a then a else b.

(** [v.k] for a key [k] that no built-in prototype defines (every key the
    screens read is of that kind): the own property of an object, and
    [undefined] on a primitive or an array.  The screens only read
    properties of truthy values, so the TypeError on [null] and
    [undefined] never arises. *)
Definition get (v : value) (k : string) : value :=
  match v with
  | VObj m => default VUndefined (m !! k)
  | _ => VUndefined
  end.

(** [v?.k] *)
Definition opt_get (v : value) (k : string) : value :=
  match v with
  | VUndefined | VNull => VUndefined
  | _ => get v k
  end.

(** [v === 'literal'] *)
Definition strict_eq_str (v : value) (lit : string) : bool :=
  match v with
  | VStr s => s =? lit
  | _ => false
  end.

Definition is_string (v : value) : bool :=
  match v with VStr _ => true | _ => false end.

(** The values a [Text] element shows as they are: strings and numbers.
    (An object as its child makes the render throw.) *)
Definition is_text (v : value) : bool :=
  match v with VStr _ | VNum _ => true | _ => false end.

(** [hay.includes(needle)] *)
Fixpoint includes (hay needle : string) : bool :=
  String.prefix needle hay ||
  match hay with
  | EmptyString => false
  | String _ rest => includes rest needle
  end.

(** The code unit [c] occurs in [s]. *)
Fixpoint occurs (c : ascii) (s : string) : bool :=
  match s with
  | EmptyString => false
  | String d rest => Ascii.eqb c d || occurs c rest
  end.

(** White space removed by [trim], among the code units below 256: TAB, LF,
    VT, FF, CR, SPACE and NO-BREAK SPACE. *)
Definition is_white_space (c : ascii) : bool :=
  let n := N_of_ascii c in
  ((9 <=? n) && (n <=? 13) || (n =? 32) || (n =? 160))%N.

Fixpoint trimStart (s : string) : string :=
  match s with
  | EmptyString => EmptyString
  | String c rest => if is_white_space c then trimStart rest else s
  end.

Fixpoint trimEnd (s : string) : string :=
  match s with
  | EmptyString => EmptyString
  | String c rest =>
      let rest' := trimEnd rest in
      if is_white_space c && (rest' =? "") then EmptyString
      else String c rest'
  end.

(** [s.trim()] *)
Definition trim (s : string) : string := trimEnd (trimStart s).

(** [`${n}`] for a non-negative integer. *)
Definition to_decimal (n : N) : string := NilZero.string_of_uint (N.to_uint n).

(** What a call of [fetch] followed by [response.json()] can do: the promise
    of [fetch] rejects with an error, or it resolves to a response with a
    status, whose body either parses to a value or makes [json()] reject. *)
Inductive json_result : Type :=
| JsonValue (data : value)
| JsonThrows (message : string).

Record Response : Type := { status : N; body : json_result }.

(** [response.ok]: the status is in the range 200-299. *)
Definition ok (r : Response) : bool := ((200 <=? status r) && (status r <=? 299))%N.

Inductive fetch_result : Type :=
| FetchRejects (message : string)
| FetchResolves (response : Response).

(** Result of a [try] block: the state it reached, or the message of the
    [Error] it threw. *)
Inductive completion (S : Type) : Type :=
| Normal (s : S)
| Throw (message : string).
Arguments Normal {S} s.
Arguments Throw {S} message.

(** [await fetch(..)], then the [response.ok] test, then
    [await response.json()], followed by [k] on the parsed body. *)
Definition await_json {S : Type} (r : fetch_result) (k : value -> completion S)
  : completion S :=
  match r with
  | FetchRejects message => Throw message
  | FetchResolves response =>
      if negb (ok response)
      then Throw ("HTTP error! status: " ++ to_decimal (status response))
      else match body response with
           | JsonThrows message => Throw message
           | JsonValue data => k data
           end
  end.

(** [try { body } catch (error) { handler(error.message) } finally { fin }] *)
Definition try_catch_finally {S : Type}
    (body : completion S) (handler : string -> S) (fin : S -> S) : S :=
  fin (match body with
       | Normal s => s
       | Throw message => handler message
       end).

(** Two values that [||] cannot tell apart on its left. *)
Definition same_choice (a b : value) : Prop :=
  a = b \/ (truthy a = false /\ truthy b = false).

(** The three kinds of caught error that the screens tell apart, and the
    rule that sorts an error text into them. *)
Inductive error_kind : Type := NetworkError | TimeoutError | OtherError.

Definition classify (text : string) : error_kind :=
  if includes text "Network request failed" || includes text "fetch" then NetworkError
  else if includes text "timeout" then TimeoutError
  else OtherError.

(** The message of the error that the [try] block around a fetch catches
    when the request settles with [r], if it throws. *)
Definition thrown (r : fetch_result) : option string :=
  match await_json r (fun _ => Normal tt) with
  | Throw message => Some message
  | Normal _ => None
  end.

End JS.

(* ===================================================================== *)
(** * DashboardScreen *)
(* ===================================================================== *)

Module Dashboard.
Import JS.

(** [interface PriceData]: the three optional fields; an absent field reads
    [undefined].  The fields hold whatever the response carried. *)
Record PriceData : Type :=
  { goldPrice1g : value; goldPrice8g : value; silverPrice1g : value }.

(** The component state, one field per [useState].  [lastUpdated] is a
    [Date] (milliseconds since the epoch) or [null]. *)
Record State : Type :=
  { priceData : PriceData;
    loading : bool;
    refreshing : bool;
    error : string;
    lastUpdated : option Z }.

(** [useState({})], [useState(false)], [useState(false)], [useState('')],
    [useState(null)] *)
Definition initial : State :=
  {| priceData := {| goldPrice1g := VUndefined; goldPrice8g := VUndefined;
                     silverPrice1g := VUndefined |};
     loading := false; refreshing := false; error := ""; lastUpdated := None |}.

Definition setPriceData (p : PriceData) (st : State) : State :=
  {| priceData := p; loading := loading st; refreshing := refreshing st;
     error := error st; lastUpdated := lastUpdated st |}.
Definition setLoading (b : bool) (st : State) : State :=
  {| priceData := priceData st; loading := b; refreshing := refreshing st;
     error := error st; lastUpdated := lastUpdated st |}.
Definition setRefreshing (b : bool) (st : State) : State :=
  {| priceData := priceData st; loading := loading st; refreshing := b;
     error := error st; lastUpdated := lastUpdated st |}.
Definition setError (e : string) (st : State) : State :=
  {| priceData := priceData st; loading := loading st; refreshing := refreshing st;
     error := e; lastUpdated := lastUpdated st |}.
Definition setLastUpdated (d : option Z) (st : State) : State :=
  {| priceData := priceData st; loading := loading st; refreshing := refreshing st;
     error := error st; lastUpdated := d |}.

Definition priceListUrl : string :=
  "http://smjuthangarai.in/RestApi/restApiPHP.php?option=PriceListToday".

(** The object literal handed to [setPriceData]. *)
Definition priceDataOf (data : value) : PriceData :=
  {| goldPrice1g :=
       or (or (get data "goldPrice1g") (get data "gold_price_1g")) (VStr "N/A");
     goldPrice8g :=
       or (or (get data "goldPrice8g") (get data "gold_price_8g")) (VStr "N/A");
     silverPrice1g :=
       or (or (get data "silverPrice1g") (get data "silver_price_1g")) (VStr "N/A") |}.

(** The [catch] block. *)
Definition fetchPrices_catch (st : State) (message : string) : State :=
  if includes message "Network request failed" || includes message "fetch"
  then setError "Network connection error. Please check your internet connection." st
  else if includes message "timeout"
  then setError "Request timeout. Please try again." st
  else setError "Failed to fetch prices. Please try again." st.

(** The [finally] block. *)
Definition fetchPrices_finally (st : State) : State :=
  setRefreshing false (setLoading false st).

(** [fetchPrices(isRefresh)] up to its first [await]: the flags and
    [setError('')]; the GET request to [priceListUrl] leaves here. *)
Definition fetchPrices_call (isRefresh : bool) (st : State) : State :=
  setError "" (if isRefresh then setRefreshing true st else setLoading true st).

(** The rest of [fetchPrices] once the request has settled with [r], at
    clock reading [now]. *)
Definition fetchPrices_settle (r : fetch_result) (now : Z) (st : State) : State :=
  try_catch_finally
    (await_json r (fun data =>
       Normal (if truthy data
               then setLastUpdated (Some now) (setPriceData (priceDataOf data) st)
               else setError "No price data available" st)))
    (fetchPrices_catch st)
    fetchPrices_finally.

(** One fetch from call to completion with nothing in between. *)
Definition fetchPrices (isRefresh : bool) (r : fetch_result) (now : Z) (st : State)
  : State :=
  fetchPrices_settle r now (fetchPrices_call isRefresh st).

(** ** What is on screen *)

Inductive CardContent : Type :=
| ActivityIndicator
| PriceText (price : value) (unit : string).

(** [PriceCard]: the spinner while [loading && !refreshing], else the
    price (after the rupee sign) and its unit.  [PriceText] is what the card
    is asked to show; the [Text] element shows it for a price that is a
    string or a number ([is_text]). *)
Definition PriceCard (st : State) (price : value) (unit : string) : CardContent :=
  if loading st && negb (refreshing st) then ActivityIndicator
  else PriceText price unit.

(** The [price] props of the three cards. *)
Definition cardPrices (st : State) : list value :=
  [ or (goldPrice1g (priceData st)) (VStr "0");
    or (goldPrice8g (priceData st)) (VStr "0");
    or (silverPrice1g (priceData st)) (VStr "0") ].

Definition cards (st : State) : list CardContent :=
  [ PriceCard st (or (goldPrice1g (priceData st)) (VStr "0")) "1 gram";
    PriceCard st (or (goldPrice8g (priceData st)) (VStr "0")) "8 gram";
    PriceCard st (or (silverPrice1g (priceData st)) (VStr "0")) "1 gram" ].

(** [{error ? <banner with Retry> : null}] *)
Definition errorBanner (st : State) : option string :=
  if negb (error st =? "") then Some (error st) else None.

(** ** Fetches in flight

    Nothing in the component waits for a fetch to settle before the next
    is started: mount, the interval timer and the Retry button call
    [fetchPrices()], pull-to-refresh calls [fetchPrices(true)]. *)

Inductive event : Type :=
| Mounted
| TimerFired
| RetryPressed
| PulledToRefresh
| Settled (r : fetch_result) (now : Z).

Record Screen : Type := { state : State; inflight : nat }.

Definition mounted : Screen := {| state := initial; inflight := 0 |}.

Definition start (isRefresh : bool) (s : Screen) : Screen :=
  {| state := fetchPrices_call isRefresh (state s); inflight := S (inflight s) |}.

(** A fetch can only settle if one is in flight. *)
Definition step (e : event) (s : Screen) : option Screen :=
  match e with
  | Mounted | TimerFired | RetryPressed => Some (start false s)
  | PulledToRefresh => Some (start true s)
  | Settled r now =>
      match inflight s with
      | O => None
      | S n => Some {| state := fetchPrices_settle r now (state s); inflight := n |}
      end
  end.

Fixpoint run (es : list event) (s : Screen) : option Screen :=
  match es with
  | [] => Some s
  | e :: es' => match step e s with Some s' => run es' s' | None => None end
  end.

(** A fetch that did not produce prices. *)
Definition failed (r : fetch_result) : bool :=
  match r with
  | FetchRejects _ => true
  | FetchResolves response =>
      negb (ok response) ||
      match body response with
      | JsonThrows _ => true
      | JsonValue data => negb (truthy data)
      end
  end.

(** ** Vocabulary of the statements about normalisation *)

(** How one snapshot field is chosen from the response object [m]: the value
    under the camelCase key if it is truthy, else the value under the
    snake_case key if that is truthy, else the string N/A. *)
Inductive takes (m : gmap string value) (camel snake : string) : value -> Prop :=
| takes_camel v :
    m !! camel = Some v -> truthy v = true -> takes m camel snake v
| takes_snake v :
    truthy (get (VObj m) camel) = false ->
    m !! snake = Some v -> truthy v = true -> takes m camel snake v
| takes_default :
    truthy (get (VObj m) camel) = false ->
    truthy (get (VObj m) snake) = false ->
    takes m camel snake (VStr "N/A").

(** What a falsy value in the response [m] does to the snapshot field [field]
    read from the keys [camel] and [snake]: a falsy camelCase value falls
    through to a truthy snake_case value, and to N/A if there is none; a
    falsy snake_case value falls through to N/A (the camelCase value being
    absent or falsy too). *)
Definition falls_through (m : gmap string value) (camel snake : string)
    (field : value) : Prop :=
  (forall v w, m !! camel = Some v -> truthy v = false ->
               m !! snake = Some w -> truthy w = true -> field = w)
  /\ (forall v, m !! camel = Some v -> truthy v = false ->
                truthy (get (VObj m) snake) = false -> field = VStr "N/A")
  /\ (forall w, truthy (get (VObj m) camel) = false ->
                m !! snake = Some w -> truthy w = false -> field = VStr "N/A").

(** The key [k] is absent from [m] or holds a string. *)
Definition string_or_absent (m : gmap string value) (k : string) : Prop :=
  forall v, m !! k = Some v -> is_string v = true.

(** The response has none of the camelCase keys. *)
Definition snake_only (m : gmap string value) : Prop :=
  m !! "goldPrice1g" = None /\ m !! "goldPrice8g" = None /\
  m !! "silverPrice1g" = None.

(** Move the value under key [from], if any, to key [to]. *)
Definition rename (from to : string) (m : gmap string value) : gmap string value :=
  match m !! from with
  | Some v => <[to := v]> (delete from m)
  | None => m
  end.

(** The response carrying the same values under the camelCase names. *)
Definition camelCased (m : gmap string value) : gmap string value :=
  rename "silver_price_1g" "silverPrice1g"
    (rename "gold_price_8g" "goldPrice8g"
       (rename "gold_price_1g" "goldPrice1g" m)).

(** The number 6200 as a double: 6200 * 2^40 * 2^-40. *)
Definition num_6200 : value := VNum (S754_finite false 6816972092211200 (-40)).

(** ** Vocabulary of the statements about the state *)

(** The user-facing message of the dashboard for each kind of error. *)
Definition message_for (k : error_kind) : string :=
  match k with
  | NetworkError => "Network connection error. Please check your internet connection."
  | TimeoutError => "Request timeout. Please try again."
  | OtherError => "Failed to fetch prices. Please try again."
  end.

Definition flags_exclusive (st : State) : Prop :=
  loading st && refreshing st = false.

(** With nothing in flight both flags are down, and with at most one fetch
    in flight they are not both up. *)
Definition calm (s : Screen) : Prop :=
  (inflight s = 0%nat -> loading (state s) = false /\ refreshing (state s) = false)
  /\ ((inflight s <= 1)%nat -> flags_exclusive (state s)).

(** No fetch of the trace produced prices. *)
Definition no_success (es : list event) : bool :=
  forallb (fun e => match e with Settled r _ => failed r | _ => true end) es.

(** ** Vocabulary of the statements about traces *)

(** The body of a fetch that produced prices: the response is ok and its
    body parses to a truthy value. *)
Definition success_data (r : fetch_result) : option value :=
  match r with
  | FetchRejects _ => None
  | FetchResolves response =>
      if ok response
      then match body response with
           | JsonValue data => if truthy data then Some data else None
           | JsonThrows _ => None
           end
      else None
  end.

(** The snapshot and time of the last fetch of [es] that produced prices,
    starting from [acc]. *)
Definition last_success (es : list event) (acc : PriceData * option Z)
  : PriceData * option Z :=
  fold_left
    (fun acc e =>
       match e with
       | Settled r now =>
           match success_data r with
           | Some data => (priceDataOf data, Some now)
           | None => acc
           end
       | _ => acc
       end)
    es acc.

(** No fetch of the trace settles. *)
Definition none_settles (es : list event) : bool :=
  forallb (fun e => match e with Settled _ _ => false | _ => true end) es.

(** Every event of the trace is the completion of a fetch that produced
    prices. *)
Definition only_successes (es : list event) : bool :=
  forallb (fun e => match e with Settled r _ => negb (failed r) | _ => false end) es.

(** The four messages the dashboard can put in its banner. *)
Definition banner_messages : list string :=
  [ "Network connection error. Please check your internet connection.";
    "Request timeout. Please try again.";
    "Failed to fetch prices. Please try again.";
    "No price data available" ].

End Dashboard.

(** ** The mount effect and its interval timer

    [useEffect(() => { fetchPrices(); const interval = setInterval(() =>
    fetchPrices(), 600000); return () => clearInterval(interval); },
    [fetchPrices])].  [fetchPrices] comes from a [useCallback] with no
    dependencies, so the effect runs once, at mount, and its cleanup once, at
    unmount.  The runtime keeps a millisecond clock and a table of interval
    timers; the callback of each is [() => fetchPrices()], the only one the
    application registers.  A timer fires when the clock reaches its due
    time and is then due again one period later. *)

Module Lifecycle.

Record timer : Type := { period : N; due : N }.

Record Env : Type :=
  { clock : N;
    timers : gmap nat timer;
    nextId : nat;
    (** every call of [fetchPrices] so far: when, and its [isRefresh] *)
    fetchPricesCalls : list (N * bool) }.

Definition boot (t0 : N) : Env :=
  {| clock := t0; timers := ∅; nextId := 0; fetchPricesCalls := [] |}.

Definition callFetchPrices (isRefresh : bool) (e : Env) : Env :=
  {| clock := clock e; timers := timers e; nextId := nextId e;
     fetchPricesCalls := fetchPricesCalls e ++ [(clock e, isRefresh)] |}.

Definition setInterval (ms : N) (e : Env) : Env * nat :=
  ({| clock := clock e;
      timers := <[nextId e := {| period := ms; due := clock e + ms |}]> (timers e);
      nextId := S (nextId e);
      fetchPricesCalls := fetchPricesCalls e |},
   nextId e).

Definition clearInterval (id : nat) (e : Env) : Env :=
  {| clock := clock e; timers := delete id (timers e); nextId := nextId e;
     fetchPricesCalls := fetchPricesCalls e |}.

Definition is_due (t : N) (tm : timer) : bool := (due tm =? t)%N.

Definition reschedule (t : N) (tm : timer) : timer :=
  if is_due t tm then {| period := period tm; due := (t + period tm)%N |} else tm.

(** One millisecond passes; every timer that is due calls [fetchPrices()]. *)
Definition tick (e : Env) : Env :=
  let t := (clock e + 1)%N in
  let fired := size (filter (fun kv => is_due t (snd kv) = true) (timers e)) in
  {| clock := t;
     timers := reschedule t <$> timers e;
     nextId := nextId e;
     fetchPricesCalls := fetchPricesCalls e ++ replicate fired (t, false) |}.

Definition advance (ms : N) (e : Env) : Env := N.iter ms tick e.

(** The effect body; it returns the [interval] its cleanup closes over. *)
Definition mount (e : Env) : Env * nat :=
  setInterval 600000 (callFetchPrices false e).

(** The cleanup function. *)
Definition unmount (interval : nat) (e : Env) : Env := clearInterval interval e.

(** Times of the timer-driven calls within [ms] milliseconds of a mount at
    [t0] with period [p]: [t0 + p], [t0 + 2p], ... *)
Definition timer_times (t0 p ms : N) : list (N * bool) :=
  map (fun k => ((t0 + p * N.of_nat k)%N, false)) (seq 1 (N.to_nat (ms / p))).

(** The environment of a screen mounted at time [t0], whose effect registered
    timer [id] with period [p], after [q] firings of the timer and [r] more
    milliseconds; [before] are the calls made up to and including the mount. *)
Definition running (t0 p : N) (id next : nat) (before : list (N * bool))
    (q : nat) (r : N) : Env :=
  {| clock := (t0 + N.of_nat q * p + r)%N;
     timers := {[id := {| period := p; due := (t0 + N.of_nat (S q) * p)%N |}]};
     nextId := next;
     fetchPricesCalls :=
       before ++ map (fun k => ((t0 + p * N.of_nat k)%N, false)) (seq 1 q) |}.

End Lifecycle.

(* ===================================================================== *)
(** * LoginScreen *)
(* ===================================================================== *)

Module Login.
Import JS.

(** The component state.  [error] is whatever was handed to [setError]: a
    string literal, or the [message] of a response. *)
Record State : Type :=
  { mobileNumber : string;
    password : string;
    loading : bool;
    error : value }.

Definition initial : State :=
  {| mobileNumber := ""; password := ""; loading := false; error := VStr "" |}.

Definition setMobileNumber (s : string) (st : State) : State :=
  {| mobileNumber := s; password := password st; loading := loading st;
     error := error st |}.
Definition setPassword (s : string) (st : State) : State :=
  {| mobileNumber := mobileNumber st; password := s; loading := loading st;
     error := error st |}.
Definition setLoading (b : bool) (st : State) : State :=
  {| mobileNumber := mobileNumber st; password := password st; loading := b;
     error := error st |}.
Definition setError (e : value) (st : State) : State :=
  {| mobileNumber := mobileNumber st; password := password st; loading := loading st;
     error := e |}.

(** What the screen does to the outside: a GET request, a [router.push]. *)
Inductive effect : Type :=
| Fetch (url : string)
| Navigate (path : string).

(** [validateInputs]: its result and the state after its [setError]. *)
Definition validateInputs (st : State) : bool * State :=
  if trim (mobileNumber st) =? ""
  then (false, setError (VStr "Mobile number is required") st)
  else if trim (password st) =? ""
  then (false, setError (VStr "Password is required") st)
  else if (String.length (mobileNumber st) <? 10)%nat
  then (false, setError (VStr "Please enter a valid mobile number") st)
  else (true, st).

Definition loginUrl (st : State) : string :=
  "http://smjuthangarai.in/RestApi/restApiPHP.php?option=LoginVerifyCustomer&mobileNumber="
  ++ mobileNumber st ++ "&password=" ++ password st.

(** [handleLogin] up to its [await]. *)
Definition handleLogin_call (st : State) : State * list effect :=
  let (valid, st1) := validateInputs (setError (VStr "") st) in
  if negb valid then (st1, [])
  else (setLoading true st1, [Fetch (loginUrl st)]).

(** The success test on the parsed response. *)
Definition loginSucceeded (data : value) : bool :=
  truthy data &&
  (strict_eq_str (get data "status") "success"
   || strict_eq_str (get data "result") "success"
   || strict_eq_str (get data "message") "Login successful").

(** The [catch] block. *)
Definition handleLogin_catch (st : State) (message : string) : State * list effect :=
  if includes message "Network request failed" || includes message "fetch"
  then (setError (VStr "Network connection error. Please check your internet connection and try again.") st, [])
  else if includes message "timeout"
  then (setError (VStr "Request timeout. Please try again.") st, [])
  else (setError (VStr "Login failed. Please check your credentials and try again.") st, []).

(** The rest of [handleLogin] once the request has settled with [r]. *)
Definition handleLogin_settle (r : fetch_result) (st : State) : State * list effect :=
  try_catch_finally
    (await_json r (fun data =>
       Normal (if loginSucceeded data
               then (st, [Navigate "/dashboard"])
               else (setError (or (opt_get data "message")
                                  (VStr "Invalid credentials. Please try again.")) st,
                     []))))
    (handleLogin_catch st)
    (fun out => (setLoading false (fst out), snd out)).

(** The banner is rendered when [error] is truthy, and is asked to show it;
    its [Text] element shows it for an error that is a string or a number
    ([is_text]). *)
Definition errorBanner (st : State) : option value :=
  if truthy (error st) then Some (error st) else None.

(** The user-facing message of the login screen for each kind of error. *)
Definition message_for (k : error_kind) : string :=
  match k with
  | NetworkError =>
      "Network connection error. Please check your internet connection and try again."
  | TimeoutError => "Request timeout. Please try again."
  | OtherError => "Login failed. Please check your credentials and try again."
  end.


(** A response with status 200 and the parsed body [data]. *)
Definition answered (data : value) : fetch_result :=
  FetchResolves {| status := 200; body := JsonValue data |}.

(** One of the three messages of [validateInputs]. *)
Definition validation_message (e : value) : Prop :=
  e = VStr "Mobile number is required"
  \/ e = VStr "Password is required"
  \/ e = VStr "Please enter a valid mobile number".

(** ** The screen as the user drives it

    The two inputs are [editable={!loading}], the mobile number input has
    [maxLength={10}] and the button is [disabled={loading}]: text is only
    delivered to [onChangeText] while the screen is not loading, the mobile
    number delivered has at most 10 characters, and a press only reaches
    [handleLogin] while the button is enabled. *)

Inductive event : Type :=
| ChangeMobileNumber (text : string)
| ChangePassword (text : string)
| PressSignIn
| Settled (r : fetch_result).

(** The state, the number of login requests in flight and everything the
    screen has done to the outside so far. *)
Record Screen : Type := { state : State; inflight : nat; effects : list effect }.

Definition opened : Screen := {| state := initial; inflight := 0; effects := [] |}.

Definition step (e : event) (s : Screen) : option Screen :=
  match e with
  | ChangeMobileNumber text =>
      if loading (state s) || (10 <? String.length text)%nat then None
      else Some {| state := setMobileNumber text (state s);
                   inflight := inflight s; effects := effects s |}
  | ChangePassword text =>
      if loading (state s) then None
      else Some {| state := setPassword text (state s);
                   inflight := inflight s; effects := effects s |}
  | PressSignIn =>
      if loading (state s) then None
      else let out := handleLogin_call (state s) in
           Some {| state := fst out;
                   inflight := inflight s + length (snd out);
                   effects := effects s ++ snd out |}
  | Settled r =>
      match inflight s with
      | O => None
      | S n => let out := handleLogin_settle r (state s) in
               Some {| state := fst out; inflight := n;
                       effects := effects s ++ snd out |}
      end
  end.

Fixpoint run (es : list event) (s : Screen) : option Screen :=
  match es with
  | [] => Some s
  | e :: es' => match step e s with Some s' => run es' s' | None => None end
  end.

(** The login URL for a mobile number and a password. *)
Definition urlFor (mobile pass : string) : string :=
  "http://smjuthangarai.in/RestApi/restApiPHP.php?option=LoginVerifyCustomer&mobileNumber="
  ++ mobile ++ "&password=" ++ pass.

(** An effect the login screen may have under its input limits: a
    navigation to the dashboard, or a login request whose mobile number has
    exactly 10 characters, not all of them white space, and whose password is
    not blank. *)
Definition well_formed_effect (fx : effect) : Prop :=
  match fx with
  | Navigate path => path = "/dashboard"
  | Fetch url =>
      exists mobile pass,
        url = urlFor mobile pass /\ String.length mobile = 10%nat
        /\ trim mobile <> "" /\ trim pass <> ""
  end.

(** What holds of the login screen whatever the user does. *)
Definition steady (s : Screen) : Prop :=
  (inflight s <= 1)%nat
  /\ (loading (state s) = true <-> inflight s = 1%nat)
  /\ (String.length (mobileNumber (state s)) <= 10)%nat
  /\ Forall well_formed_effect (effects s).

(** How many login requests, and how many navigations, a list of effects
    holds. *)
Fixpoint requests (fx : list effect) : nat :=
  match fx with
  | [] => 0
  | Fetch _ :: rest => S (requests rest)
  | Navigate _ :: rest => requests rest
  end.

Fixpoint navigations (fx : list effect) : nat :=
  match fx with
  | [] => 0
  | Navigate _ :: rest => S (navigations rest)
  | Fetch _ :: rest => navigations rest
  end.

End Login.

(* ===================================================================== *)
(** * Properties of the JavaScript fragment *)
(* ===================================================================== *)

Module JSFacts.
Import JS.

Lemma or_truthy (a b : value) : truthy a = true -> or a b = a.
Proof. intros H. unfold or. now rewrite H. Qed.

Lemma or_falsy (a b : value) : truthy a = false -> or a b = b.
Proof. intros H. unfold or. now rewrite H. Qed.

Lemma truthy_or (a b : value) : truthy b = true -> truthy (or a b) = true.
Proof. intros H. unfold or. destruct (truthy a) eqn:E; congruence. Qed.

Lemma get_obj_Some (m : gmap string value) k v :
  m !! k = Some v -> get (VObj m) k = v.
Proof. intros H. simpl. now rewrite H. Qed.

Lemma or_same_choice (a a' b b' c : value) :
  same_choice a a' -> same_choice b b' -> or (or a b) c = or (or a' b') c.
Proof.
  intros [-> | [Ha Ha']] [-> | [Hb Hb']]; try reflexivity.
  - unfold or. destruct (truthy a'); [reflexivity|]. now rewrite Hb, Hb'.
  - unfold or. rewrite Ha, Ha'. reflexivity.
  - unfold or. now rewrite Ha, Ha', Hb, Hb'.
Qed.

(** Deleting a key that holds a falsy value is invisible to a read
    followed by [||]. *)
Lemma get_delete_falsy (m : gmap string value) k k' v :
  m !! k = Some v -> truthy v = false ->
  same_choice (get (VObj (delete k m)) k') (get (VObj m) k').
Proof.
  intros Hk Hv. simpl. destruct (decide (k = k')) as [<- | Hne].
  - right. rewrite lookup_delete_eq, Hk. simpl. auto.
  - left. now rewrite lookup_delete_ne.
Qed.

End JSFacts.

(* ===================================================================== *)
(** * Normalisation of the price response *)
(* ===================================================================== *)

Module Normalisation.
Import JS JSFacts Dashboard.

Section Field.
Variable m : gmap string value.
Variables camel snake : string.

Abbreviation field := (or (or (get (VObj m) camel) (get (VObj m) snake)) (VStr "N/A")).

Lemma field_takes : takes m camel snake field.
Proof.
  simpl.
  destruct (m !! camel) as [v|] eqn:Hc; simpl.
  - destruct (truthy v) eqn:Hv.
    + rewrite (or_truthy v) by exact Hv. rewrite or_truthy by exact Hv.
      now apply takes_camel.
    + rewrite (or_falsy v) by exact Hv.
      destruct (m !! snake) as [w|] eqn:Hs; simpl.
      * destruct (truthy w) eqn:Hw.
        -- rewrite or_truthy by exact Hw. apply takes_snake; simpl; auto.
           now rewrite Hc.
        -- rewrite or_falsy by exact Hw. apply takes_default; simpl.
           ++ now rewrite Hc.
           ++ now rewrite Hs.
      * rewrite or_falsy by reflexivity. apply takes_default; simpl.
        -- now rewrite Hc.
        -- now rewrite Hs.
  - rewrite (or_falsy VUndefined) by reflexivity.
    destruct (m !! snake) as [w|] eqn:Hs; simpl.
    + destruct (truthy w) eqn:Hw.
      * rewrite or_truthy by exact Hw. apply takes_snake; simpl; auto.
        now rewrite Hc.
      * rewrite or_falsy by exact Hw. apply takes_default; simpl.
        -- now rewrite Hc.
        -- now rewrite Hs.
    + rewrite or_falsy by reflexivity. apply takes_default; simpl.
      * now rewrite Hc.
      * now rewrite Hs.
Qed.

Lemma field_truthy : truthy field = true.
Proof. now apply truthy_or. Qed.

Lemma field_string :
  string_or_absent m camel -> string_or_absent m snake -> is_string field = true.
Proof.
  intros Hc Hs. destruct field_takes as [v Hv _ | v _ Hv _ | _ _]; eauto.
Qed.

End Field.

(** The end-to-end response of the specification. *)
Example scenario_response_snapshot :
  priceDataOf (VObj (<["gold_price_1g" := VStr "6200"]>
                       (<["goldPrice8g" := VStr "49600"]> ∅)))
  = {| goldPrice1g := VStr "6200"; goldPrice8g := VStr "49600";
       silverPrice1g := VStr "N/A" |}.
Proof. vm_compute. reflexivity. Qed.

(** C1, as stated, fails: a truthy value that is not a string is taken as it
    is.  For the response [{ "goldPrice1g": 6200 }], with a JSON number, the
    snapshot field [goldPrice1g] is that number and not a string. *)
Lemma C1_number_is_kept :
  goldPrice1g (priceDataOf (VObj (<["goldPrice1g" := num_6200]> ∅))) = num_6200
  /\ is_string (goldPrice1g (priceDataOf (VObj (<["goldPrice1g" := num_6200]> ∅))))
     = false.
Proof. split; vm_compute; reflexivity. Qed.

(** C1 (amended).  For every response object [m], the snapshot built by
    [fetchPrices] has the three fields goldPrice1g, goldPrice8g and
    silverPrice1g, and each of them: takes the camelCase value of the response
    if that is truthy, else the snake_case value if that is truthy, else the
    string N/A; is truthy, hence never undefined; and is a string whenever the
    response holds strings (or nothing) under its two keys.  The response
    [{ "gold_price_1g": "6200", "goldPrice8g": "49600" }] gives
    [{goldPrice1g: "6200", goldPrice8g: "49600", silverPrice1g: "N/A"}]. *)
Theorem C1_snapshot_fields (m : gmap string value) :
  let p := priceDataOf (VObj m) in
  (takes m "goldPrice1g" "gold_price_1g" (goldPrice1g p)
   /\ takes m "goldPrice8g" "gold_price_8g" (goldPrice8g p)
   /\ takes m "silverPrice1g" "silver_price_1g" (silverPrice1g p))
  /\ (truthy (goldPrice1g p) = true /\ truthy (goldPrice8g p) = true
      /\ truthy (silverPrice1g p) = true)
  /\ (goldPrice1g p <> VUndefined /\ goldPrice8g p <> VUndefined
      /\ silverPrice1g p <> VUndefined)
  /\ ((string_or_absent m "goldPrice1g" -> string_or_absent m "gold_price_1g" ->
       is_string (goldPrice1g p) = true)
      /\ (string_or_absent m "goldPrice8g" -> string_or_absent m "gold_price_8g" ->
          is_string (goldPrice8g p) = true)
      /\ (string_or_absent m "silverPrice1g" -> string_or_absent m "silver_price_1g" ->
          is_string (silverPrice1g p) = true))
  /\ priceDataOf (VObj (<["gold_price_1g" := VStr "6200"]>
                          (<["goldPrice8g" := VStr "49600"]> ∅)))
     = {| goldPrice1g := VStr "6200"; goldPrice8g := VStr "49600";
          silverPrice1g := VStr "N/A" |}.
Proof.
  intros p. subst p. unfold priceDataOf; cbn [goldPrice1g goldPrice8g silverPrice1g].
  pose proof (field_truthy m "goldPrice1g" "gold_price_1g") as T1.
  pose proof (field_truthy m "goldPrice8g" "gold_price_8g") as T2.
  pose proof (field_truthy m "silverPrice1g" "silver_price_1g") as T3.
  repeat split; try apply field_takes; try apply field_string; auto;
    try (intros E; rewrite E in *; discriminate).
Qed.

(** The string part of C1 at the response of the scenario, whose values are
    all strings. *)
Lemma C1_snapshot_fields_witness :
  let m : gmap string value :=
    <["gold_price_1g" := VStr "6200"]> (<["goldPrice8g" := VStr "49600"]> ∅) in
  is_string (goldPrice1g (priceDataOf (VObj m))) = true
  /\ is_string (goldPrice8g (priceDataOf (VObj m))) = true
  /\ is_string (silverPrice1g (priceDataOf (VObj m))) = true.
Proof.
  intros m.
  destruct (C1_snapshot_fields m) as (_ & _ & _ & (S1 & S2 & S3) & _).
  assert (forall k, string_or_absent m k) as Hs.
  { intros k v. subst m. rewrite !lookup_insert. repeat case_decide.
    - intros [= <-]. reflexivity.
    - intros [= <-]. reflexivity.
    - rewrite lookup_empty. discriminate. }
  split; [apply S1 | split; [apply S2 | apply S3]]; apply Hs.
Defined.

(** ** Field-name aliasing *)

Lemma rename_lookup_to (from to : string) (m : gmap string value) :
  m !! to = None -> rename from to m !! to = m !! from.
Proof.
  intros Hto. unfold rename. destruct (m !! from) as [v|] eqn:Hf.
  - apply lookup_insert_eq.
  - exact Hto.
Qed.

Lemma rename_lookup_from (from to : string) (m : gmap string value) :
  from <> to -> rename from to m !! from = None.
Proof.
  intros Hne. unfold rename. destruct (m !! from) as [v|] eqn:Hf.
  - rewrite lookup_insert_ne by congruence. apply lookup_delete_eq.
  - exact Hf.
Qed.

Lemma rename_lookup_other (from to k : string) (m : gmap string value) :
  k <> from -> k <> to -> rename from to m !! k = m !! k.
Proof.
  intros H1 H2. unfold rename. destruct (m !! from) as [v|] eqn:Hf.
  - rewrite lookup_insert_ne by congruence. now rewrite lookup_delete_ne by congruence.
  - reflexivity.
Qed.

(** In the camelCase twin of a response without camelCase keys, each
    camelCase key holds what the snake_case key held, and the snake_case
    keys are gone. *)
Lemma camelCased_lookups (m : gmap string value) :
  snake_only m ->
  (camelCased m !! "goldPrice1g" = m !! "gold_price_1g"
   /\ camelCased m !! "goldPrice8g" = m !! "gold_price_8g"
   /\ camelCased m !! "silverPrice1g" = m !! "silver_price_1g")
  /\ (camelCased m !! "gold_price_1g" = None
      /\ camelCased m !! "gold_price_8g" = None
      /\ camelCased m !! "silver_price_1g" = None).
Proof.
  intros (H1 & H8 & HS). unfold camelCased.
  repeat split.
  - rewrite !rename_lookup_other by discriminate. now apply rename_lookup_to.
  - rewrite rename_lookup_other by discriminate.
    rewrite rename_lookup_to; [now rewrite rename_lookup_other by discriminate|].
    now rewrite rename_lookup_other by discriminate.
  - rewrite rename_lookup_to; [now rewrite !rename_lookup_other by discriminate|].
    now rewrite !rename_lookup_other by discriminate.
  - rewrite !rename_lookup_other by discriminate. now apply rename_lookup_from.
  - rewrite rename_lookup_other by discriminate. now apply rename_lookup_from.
  - now apply rename_lookup_from.
Qed.

(** If the camelCase slot of one response reads what the snake_case slot of
    another reads, and the other slots are empty, both give the same field. *)
Lemma alias_field (a : value) (c : value) :
  or (or VUndefined a) c = or (or a VUndefined) c.
Proof.
  rewrite (or_falsy VUndefined) by reflexivity.
  unfold or. destruct (truthy a) eqn:E; [now rewrite E | reflexivity].
Qed.

(** C5.  For every response object that has only snake_case fields (none of
    the three camelCase keys), the snapshot equals the snapshot of the
    response that carries the same values under the camelCase names. *)
Theorem C5_aliasing_transparent (m : gmap string value) :
  snake_only m ->
  priceDataOf (VObj m) = priceDataOf (VObj (camelCased m)).
Proof.
  intros Hm. destruct (camelCased_lookups m Hm) as ((C1 & C8 & CS) & (S1 & S8 & SS)).
  destruct Hm as (H1 & H8 & HS).
  unfold priceDataOf. simpl.
  rewrite C1, C8, CS, S1, S8, SS, H1, H8, HS. simpl.
  now rewrite !alias_field.
Qed.

(** C5 at the response [{ "gold_price_1g": "6200", "silver_price_1g": "75" }]. *)
Lemma C5_aliasing_transparent_witness :
  priceDataOf (VObj (<["gold_price_1g" := VStr "6200"]>
                       (<["silver_price_1g" := VStr "75"]> ∅)))
  = priceDataOf (VObj (camelCased (<["gold_price_1g" := VStr "6200"]>
                                     (<["silver_price_1g" := VStr "75"]> ∅)))).
Proof.
  apply C5_aliasing_transparent.
  unfold snake_only. repeat split; vm_compute; reflexivity.
Defined.

(** The twin of that response is [{ "goldPrice1g": "6200",
    "silverPrice1g": "75" }]. *)
Example camelCased_example :
  camelCased (<["gold_price_1g" := VStr "6200"]>
                (<["silver_price_1g" := VStr "75"]> ∅))
  = <["goldPrice1g" := VStr "6200"]> (<["silverPrice1g" := VStr "75"]> ∅).
Proof. vm_compute. reflexivity. Qed.

(** ** Falsy values *)

(** A falsy value under the camelCase key: the field is chosen between the
    snake_case value and N/A, as if the camelCase key were absent. *)
Lemma falsy_camel_falls_through (m : gmap string value) (camel snake : string) v :
  m !! camel = Some v -> truthy v = false ->
  or (or (get (VObj m) camel) (get (VObj m) snake)) (VStr "N/A")
  = or (get (VObj m) snake) (VStr "N/A").
Proof.
  intros Hc Hv. rewrite (get_obj_Some m camel v Hc). now rewrite (or_falsy v).
Qed.

(** A falsy value under the snake_case key, the camelCase key being absent or
    falsy too: the field is N/A. *)
Lemma falsy_snake_falls_through (m : gmap string value) (camel snake : string) v :
  truthy (get (VObj m) camel) = false ->
  m !! snake = Some v -> truthy v = false ->
  or (or (get (VObj m) camel) (get (VObj m) snake)) (VStr "N/A") = VStr "N/A".
Proof.
  intros Hc Hs Hv. rewrite (get_obj_Some m snake v Hs).
  rewrite (or_falsy _ v Hc). now rewrite or_falsy.
Qed.

Lemma field_falls_through (m : gmap string value) (camel snake : string) :
  falls_through m camel snake
    (or (or (get (VObj m) camel) (get (VObj m) snake)) (VStr "N/A")).
Proof.
  split; [|split].
  - intros v w Hc Hv Hs Hw.
    rewrite (falsy_camel_falls_through m camel snake v Hc Hv).
    rewrite (get_obj_Some m snake w Hs). now apply or_truthy.
  - intros v Hc Hv Hs.
    rewrite (falsy_camel_falls_through m camel snake v Hc Hv). now apply or_falsy.
  - intros w Hc Hs Hw. exact (falsy_snake_falls_through m camel snake w Hc Hs Hw).
Qed.

(** C10.  For every response object and each of the three price fields, a
    value that is present but falsy (the empty string, [0], [null], [false])
    is treated exactly like an absent one.  A falsy camelCase value falls
    through to the snake_case value when that is truthy, and to N/A
    otherwise; a falsy snake_case value falls through to N/A.  And the
    snapshot is the snapshot of the response without the key that holds the
    falsy value. *)
Theorem C10_falsy_like_absent (m : gmap string value) :
  let p := priceDataOf (VObj m) in
  (falls_through m "goldPrice1g" "gold_price_1g" (goldPrice1g p)
   /\ falls_through m "goldPrice8g" "gold_price_8g" (goldPrice8g p)
   /\ falls_through m "silverPrice1g" "silver_price_1g" (silverPrice1g p))
  /\ (forall k v, m !! k = Some v -> truthy v = false ->
                  priceDataOf (VObj (delete k m)) = p).
Proof.
  intros p. subst p. split.
  - unfold priceDataOf; cbn [goldPrice1g goldPrice8g silverPrice1g].
    split; [|split]; apply field_falls_through.
  - intros k v Hk Hv. unfold priceDataOf. f_equal;
      apply or_same_choice; eapply get_delete_falsy; eassumption.
Qed.

(** C10 at [{ "goldPrice1g": "", "gold_price_1g": "6200",
    "silver_price_1g": "" }]: the gold field is the snake_case "6200", the
    silver field is N/A, and the empty camelCase value can be dropped. *)
Lemma C10_falsy_like_absent_witness :
  let m : gmap string value :=
    <["goldPrice1g" := VStr ""]>
      (<["gold_price_1g" := VStr "6200"]> (<["silver_price_1g" := VStr ""]> ∅)) in
  goldPrice1g (priceDataOf (VObj m)) = VStr "6200"
  /\ silverPrice1g (priceDataOf (VObj m)) = VStr "N/A"
  /\ priceDataOf (VObj (delete "goldPrice1g" m)) = priceDataOf (VObj m).
Proof.
  intros m.
  destruct (C10_falsy_like_absent m) as (((G1 & _ & _) & _ & (_ & _ & S3)) & Hdel).
  split; [|split].
  - apply (G1 (VStr "") (VStr "6200")); reflexivity.
  - apply (S3 (VStr "")); reflexivity.
  - apply (Hdel "goldPrice1g" (VStr "")); reflexivity.
Defined.

Example empty_strings_snapshot :
  priceDataOf (VObj (<["goldPrice1g" := VStr ""]>
                       (<["gold_price_1g" := VStr "6200"]>
                          (<["silver_price_1g" := VStr ""]> ∅))))
  = {| goldPrice1g := VStr "6200"; goldPrice8g := VStr "N/A";
       silverPrice1g := VStr "N/A" |}.
Proof. vm_compute. reflexivity. Qed.

End Normalisation.

(* ===================================================================== *)
(** * Error classification *)
(* ===================================================================== *)

Module Classification.
Import JS.

Lemma dashboard_catch_classify (st : Dashboard.State) (text : string) :
  Dashboard.fetchPrices_catch st text
  = Dashboard.setError (Dashboard.message_for (classify text)) st.
Proof.
  unfold Dashboard.fetchPrices_catch, classify.
  destruct (includes text "Network request failed" || includes text "fetch");
    [reflexivity|].
  destruct (includes text "timeout"); reflexivity.
Qed.

Lemma login_catch_classify (st : Login.State) (text : string) :
  Login.handleLogin_catch st text
  = (Login.setError (VStr (Login.message_for (classify text))) st, []).
Proof.
  unfold Login.handleLogin_catch, classify.
  destruct (includes text "Network request failed" || includes text "fetch");
    [reflexivity|].
  destruct (includes text "timeout"); reflexivity.
Qed.

(** When the [try] block throws, the continuation is the [catch] block
    followed by the [finally] block. *)
Lemma thrown_try {S : Type} (r : fetch_result) (text : string)
    (k : value -> completion S) (handler : string -> S) (fin : S -> S) :
  thrown r = Some text ->
  try_catch_finally (await_json r k) handler fin = fin (handler text).
Proof.
  unfold thrown, try_catch_finally, await_json.
  destruct r as [message | response].
  - intros [= ->]. reflexivity.
  - destruct (negb (ok response)).
    + intros [= ->]. reflexivity.
    + destruct (body response); [discriminate|]. intros [= ->]. reflexivity.
Qed.

Lemma classify_cases (text : string) :
  (if includes text "Network request failed" || includes text "fetch"
   then classify text = NetworkError
   else if includes text "timeout"
        then classify text = TimeoutError
        else classify text = OtherError).
Proof.
  unfold classify.
  destruct (includes text "Network request failed" || includes text "fetch");
    [reflexivity|].
  destruct (includes text "timeout"); reflexivity.
Qed.

(** C6.  For every fetch whose [try] block throws an error with message
    [text], on the login screen and on the dashboard alike, the error shown is
    the screen's message for the kind of [text]: the network-error message if
    [text] contains "Network request failed" or "fetch", otherwise the timeout
    message if it contains "timeout", otherwise the generic failure message.
    The kind is computed by the same rule on both screens; the login screen
    does not navigate. *)
Theorem C6_same_classification (r : fetch_result) (text : string)
    (ls : Login.State) (ds : Dashboard.State) (now : Z) :
  thrown r = Some text ->
  Login.handleLogin_settle r ls
  = (Login.setLoading false
       (Login.setError (VStr (Login.message_for (classify text))) ls), [])
  /\ Dashboard.error (Dashboard.fetchPrices_settle r now ds)
     = Dashboard.message_for (classify text)
  /\ (if includes text "Network request failed" || includes text "fetch"
      then classify text = NetworkError
      else if includes text "timeout"
           then classify text = TimeoutError
           else classify text = OtherError).
Proof.
  intros Hr. split; [|split].
  - unfold Login.handleLogin_settle. rewrite (thrown_try r text) by exact Hr.
    now rewrite login_catch_classify.
  - unfold Dashboard.fetchPrices_settle. rewrite (thrown_try r text) by exact Hr.
    now rewrite dashboard_catch_classify.
  - apply classify_cases.
Qed.

(** C6 at the transport error of React Native, "Network request failed". *)
Lemma C6_same_classification_witness :
  Login.error (fst (Login.handleLogin_settle
                      (FetchRejects "Network request failed") Login.initial))
  = VStr "Network connection error. Please check your internet connection and try again."
  /\ Dashboard.error (Dashboard.fetchPrices_settle
                        (FetchRejects "Network request failed") 0 Dashboard.initial)
     = "Network connection error. Please check your internet connection.".
Proof.
  destruct (C6_same_classification (FetchRejects "Network request failed")
              "Network request failed" Login.initial Dashboard.initial 0 eq_refl)
    as (HL & HD & _).
  split.
  - rewrite HL. reflexivity.
  - rewrite HD. reflexivity.
Defined.

(** ** Errors made from the HTTP status

    The message of the error thrown for a response that is not ok never
    contains one of the three substrings, whatever the status, so such a
    failure always gets the generic message. *)

Lemma prefix_occurs (c : ascii) (needle hay : string) :
  String.prefix needle hay = true -> occurs c needle = true -> occurs c hay = true.
Proof.
  revert hay. induction needle as [|a needle IH]; intros hay; simpl;
    [intros _ H; discriminate H|].
  destruct hay as [|b hay]; simpl; [intros H; discriminate H|].
  destruct (ascii_dec a b) as [<- | _]; [|intros H; discriminate H].
  intros Hp Ho. simpl. apply orb_true_iff in Ho as [Ho | Ho].
  - now rewrite Ho.
  - rewrite (IH hay Hp Ho). apply orb_true_r.
Qed.

Lemma includes_occurs (c : ascii) (needle : string) :
  forall hay, includes hay needle = true -> occurs c needle = true ->
              occurs c hay = true.
Proof.
  induction hay as [|b hay IH]; simpl; intros Hi Ho.
  - rewrite orb_false_r in Hi. destruct needle; simpl in Hi, Ho; discriminate.
  - apply orb_true_iff in Hi as [Hp | Hi].
    + apply (prefix_occurs c needle (String b hay) Hp Ho).
    + rewrite (IH Hi Ho). apply orb_true_r.
Qed.

Lemma occurs_append (c : ascii) (s1 s2 : string) :
  occurs c (s1 ++ s2) = occurs c s1 || occurs c s2.
Proof.
  induction s1 as [|a s1 IH]; simpl; [reflexivity|]. now rewrite IH, orb_assoc.
Qed.

(** A code unit that is not a decimal digit does not occur in a printed
    number. *)
Lemma occurs_decimal (c : ascii) (n : N) :
  ((N_of_ascii c <? 48) || (57 <? N_of_ascii c))%N = true ->
  occurs c (to_decimal n) = false.
Proof.
  intros Hc. unfold to_decimal.
  assert (forall d, occurs c (NilEmpty.string_of_uint d) = false) as Hd.
  { induction d; simpl; [reflexivity | ..]; rewrite IHd, orb_false_r;
      apply Ascii.eqb_neq; intros ->; discriminate Hc. }
  unfold NilZero.string_of_uint. destruct (N.to_uint n); try apply Hd.
  simpl. rewrite orb_false_r. apply Ascii.eqb_neq. intros ->. discriminate Hc.
Qed.

Lemma http_error_excludes (c : ascii) (needle : string) (n : N) :
  occurs c needle = true ->
  occurs c "HTTP error! status: " = false ->
  ((N_of_ascii c <? 48) || (57 <? N_of_ascii c))%N = true ->
  includes ("HTTP error! status: " ++ to_decimal n) needle = false.
Proof.
  intros Hn Hp Hc. apply not_true_iff_false. intros Hi.
  pose proof (includes_occurs c needle _ Hi Hn) as Ho.
  rewrite occurs_append, Hp, (occurs_decimal c n Hc) in Ho. discriminate.
Qed.

Lemma http_error_is_other (n : N) :
  classify ("HTTP error! status: " ++ to_decimal n) = OtherError.
Proof.
  unfold classify.
  rewrite (http_error_excludes "f" "Network request failed") by reflexivity.
  rewrite (http_error_excludes "f" "fetch") by reflexivity.
  rewrite (http_error_excludes "m" "timeout") by reflexivity.
  reflexivity.
Qed.

(** X13.  Every response that is not ok, whatever its status number and its
    body, puts the generic failure message on the dashboard and on the login
    screen: the text made from the status never contains one of the three
    substrings that select another message. *)
Lemma not_ok_generic_message (response : Response) (now : Z)
    (ls : Login.State) (ds : Dashboard.State) :
  ok response = false ->
  Dashboard.error (Dashboard.fetchPrices_settle (FetchResolves response) now ds)
  = "Failed to fetch prices. Please try again."
  /\ Login.error (fst (Login.handleLogin_settle (FetchResolves response) ls))
     = VStr "Login failed. Please check your credentials and try again.".
Proof.
  intros Hok.
  assert (thrown (FetchResolves response)
          = Some ("HTTP error! status: " ++ to_decimal (status response))) as Ht.
  { unfold thrown, await_json. now rewrite Hok. }
  unfold Dashboard.fetchPrices_settle, Login.handleLogin_settle.
  rewrite !(thrown_try _ _ _ _ _ Ht).
  rewrite dashboard_catch_classify, login_catch_classify, http_error_is_other.
  split; reflexivity.
Qed.

Example classify_examples :
  classify "Network request failed" = NetworkError
  /\ classify "Failed to fetch" = NetworkError
  /\ classify "Request timeout" = TimeoutError
  /\ classify "fetch timeout" = NetworkError
  /\ classify "Unexpected token < in JSON at position 0" = OtherError
  /\ classify "HTTP error! status: 500" = OtherError.
Proof. repeat split. Qed.

End Classification.

(* ===================================================================== *)
(** * The dashboard state across fetches *)
(* ===================================================================== *)

Module DashboardFacts.
Import JS Dashboard.

Lemma message_for_nonempty (k : error_kind) : (message_for k =? "") = false.
Proof. destruct k; reflexivity. Qed.

(** A failed fetch only sets a non-empty error and clears the flags. *)
Lemma settle_failed (r : fetch_result) (now : Z) (st : State) :
  failed r = true ->
  exists msg, (msg =? "") = false /\ fetchPrices_settle r now st = fetchPrices_finally (setError msg st).
Proof.
  unfold failed, fetchPrices_settle, try_catch_finally, await_json.
  destruct r as [message | response].
  - intros _. exists (message_for (classify message)).
    split; [apply message_for_nonempty|].
    now rewrite Classification.dashboard_catch_classify.
  - destruct (negb (ok response)); simpl.
    + intros _. eexists. split; [apply message_for_nonempty|].
      now rewrite Classification.dashboard_catch_classify.
    + destruct (body response) as [data | message].
      * intros Hd. apply negb_true_iff in Hd. rewrite Hd.
        exists "No price data available". split; reflexivity.
      * intros _. eexists. split; [apply message_for_nonempty|].
        now rewrite Classification.dashboard_catch_classify.
Qed.

(** A successful fetch stores the snapshot of its body and the time. *)
Lemma settle_success (r : fetch_result) (now : Z) (st : State) :
  failed r = false ->
  exists response data,
    r = FetchResolves response /\ ok response = true
    /\ body response = JsonValue data /\ truthy data = true
    /\ fetchPrices_settle r now st
       = fetchPrices_finally
           (setLastUpdated (Some now) (setPriceData (priceDataOf data) st)).
Proof.
  unfold failed, fetchPrices_settle, try_catch_finally, await_json.
  destruct r as [message | response]; [discriminate|].
  destruct (ok response) eqn:Hok; [|discriminate]. simpl.
  destruct (body response) as [data | message] eqn:Hb; [|discriminate].
  intros Hd. apply negb_false_iff in Hd. rewrite Hd.
  exists response, data. auto.
Qed.

Lemma call_keeps_prices (isRefresh : bool) (st : State) :
  priceData (fetchPrices_call isRefresh st) = priceData st
  /\ lastUpdated (fetchPrices_call isRefresh st) = lastUpdated st.
Proof. destruct isRefresh; split; reflexivity. Qed.

Lemma settle_failed_keeps_prices (r : fetch_result) (now : Z) (st : State) :
  failed r = true ->
  priceData (fetchPrices_settle r now st) = priceData st
  /\ lastUpdated (fetchPrices_settle r now st) = lastUpdated st.
Proof.
  intros H. destruct (settle_failed r now st H) as (msg & _ & ->). split; reflexivity.
Qed.

Lemma settle_clears_flags (r : fetch_result) (now : Z) (st : State) :
  loading (fetchPrices_settle r now st) = false
  /\ refreshing (fetchPrices_settle r now st) = false.
Proof.
  unfold fetchPrices_settle, try_catch_finally. split; reflexivity.
Qed.

(** Any event other than a successful completion leaves the prices and the
    time of the last update as they were. *)
Lemma step_keeps_prices (e : event) (s s' : Screen) :
  step e s = Some s' ->
  (forall r now, e = Settled r now -> failed r = true) ->
  priceData (state s') = priceData (state s)
  /\ lastUpdated (state s') = lastUpdated (state s).
Proof.
  intros Hstep Hfail. destruct e as [ | | | | r now]; simpl in Hstep;
    try (injection Hstep as <-; apply call_keeps_prices).
  destruct (inflight s); [discriminate|]. injection Hstep as <-. simpl.
  apply settle_failed_keeps_prices. now apply (Hfail r now).
Qed.

(** ** Stale-while-error *)

(** C2.  Let a fetch succeed at time [t0] and a later fetch fail (the request
    is rejected, the status is not 2xx, the body does not parse or is falsy).
    After the failed fetch the snapshot is still the one of the successful
    response and [lastUpdated] is still [t0]; the three cards show those
    prices, not the spinner, under a non-empty error banner.  Moreover no
    event changes [lastUpdated] except the completion of a successful fetch,
    which sets it to the time of that completion. *)
Theorem C2_stale_while_error
    (st0 : State) (b0 b : bool) (r0 r : fetch_result) (t0 t : Z) :
  failed r0 = false -> failed r = true ->
  let st1 := fetchPrices b0 r0 t0 st0 in
  let st2 := fetchPrices b r t st1 in
  (exists response data,
      r0 = FetchResolves response /\ body response = JsonValue data
      /\ priceData st1 = priceDataOf data)
  /\ lastUpdated st1 = Some t0
  /\ priceData st2 = priceData st1
  /\ lastUpdated st2 = lastUpdated st1
  /\ cards st2
     = [ PriceText (or (goldPrice1g (priceData st1)) (VStr "0")) "1 gram";
         PriceText (or (goldPrice8g (priceData st1)) (VStr "0")) "8 gram";
         PriceText (or (silverPrice1g (priceData st1)) (VStr "0")) "1 gram" ]
  /\ (exists msg, msg <> "" /\ errorBanner st2 = Some msg)
  /\ (forall e s s',
        step e s = Some s' ->
        lastUpdated (state s') <> lastUpdated (state s) ->
        exists r' now, e = Settled r' now /\ failed r' = false
                       /\ lastUpdated (state s') = Some now).
Proof.
  intros Hok Hfail st1 st2. subst st2 st1. unfold fetchPrices.
  destruct (settle_success r0 t0 (fetchPrices_call b0 st0) Hok)
    as (response & data & -> & _ & Hbody & _ & E1).
  rewrite E1.
  set (st1 := fetchPrices_finally _).
  destruct (settle_failed r t (fetchPrices_call b st1) Hfail) as (msg & Hmsg & E2).
  rewrite E2.
  split; [exists response, data; auto|].
  split; [reflexivity|].
  split; [destruct b; reflexivity|].
  split; [destruct b; reflexivity|].
  split; [destruct b; reflexivity|].
  split.
  - exists msg. split.
    + intros ->. discriminate.
    + unfold errorBanner. simpl. now rewrite Hmsg.
  - intros e s s' Hstep Hchg.
    destruct e as [ | | | | r' now];
      try (exfalso; apply Hchg; apply (step_keeps_prices _ _ _ Hstep); discriminate).
    destruct (failed r') eqn:Hf.
    + exfalso. apply Hchg. apply (step_keeps_prices _ _ _ Hstep).
      intros ? ? [= <- <-]. exact Hf.
    + exists r', now. split; [reflexivity|]. split; [exact Hf|].
      simpl in Hstep. destruct (inflight s); [discriminate|].
      injection Hstep as <-. cbn [state].
      destruct (settle_success r' now (state s) Hf) as (? & ? & _ & _ & _ & _ & ->).
      reflexivity.
Qed.

(** C2 at: the scenario response arrives at time 1000, then the next fetch
    is answered with status 500. *)
Lemma C2_stale_while_error_witness :
  let good := FetchResolves
    {| status := 200;
       body := JsonValue (VObj (<["gold_price_1g" := VStr "6200"]>
                                  (<["goldPrice8g" := VStr "49600"]> ∅))) |} in
  let bad := FetchResolves {| status := 500; body := JsonThrows "Unexpected token" |} in
  let st2 := fetchPrices true bad 2000 (fetchPrices false good 1000 initial) in
  lastUpdated st2 = Some 1000%Z
  /\ cards st2 = [ PriceText (VStr "6200") "1 gram"; PriceText (VStr "49600") "8 gram";
                   PriceText (VStr "N/A") "1 gram" ]
  /\ errorBanner st2 = Some "Failed to fetch prices. Please try again.".
Proof.
  intros good bad st2.
  destruct (C2_stale_while_error initial false true good bad 1000 2000 eq_refl eq_refl)
    as (_ & H1 & _ & H2 & H3 & _).
  split; [|split].
  - subst st2. rewrite H2. exact H1.
  - subst st2. rewrite H3. vm_compute. reflexivity.
  - vm_compute. reflexivity.
Defined.

(** ** The loading and refreshing flags *)

(** What each event does to the two flags. *)
Lemma step_flags (e : event) (s s' : Screen) :
  step e s = Some s' ->
  match e with
  | PulledToRefresh =>
      refreshing (state s') = true /\ loading (state s') = loading (state s)
  | Mounted | TimerFired | RetryPressed =>
      loading (state s') = true /\ refreshing (state s') = refreshing (state s)
  | Settled _ _ =>
      loading (state s') = false /\ refreshing (state s') = false
  end.
Proof.
  destruct e as [ | | | | r now]; simpl; try (intros [= <-]; split; reflexivity).
  destruct (inflight s); [discriminate|]. intros [= <-]. apply settle_clears_flags.
Qed.

Lemma step_calm (e : event) (s s' : Screen) :
  calm s -> step e s = Some s' -> calm s'.
Proof.
  intros [Hidle _] Hstep. pose proof (step_flags e s s' Hstep) as Hf.
  unfold calm, flags_exclusive.
  destruct e as [ | | | | r now]; cbn [step] in Hstep;
    try (injection Hstep as <-; destruct Hf as [Hf1 Hf2];
         split; [intros H; discriminate H|];
         intros Hle; cbn [inflight start] in Hle;
         assert (inflight s = 0%nat) as Hz by lia;
         destruct (Hidle Hz) as [Hl Hr];
         rewrite Hf1, Hf2; first [rewrite Hr | rewrite Hl]; reflexivity).
  destruct Hf as [Hf1 Hf2]. rewrite Hf1, Hf2. auto.
Qed.

Lemma run_calm (es : list event) :
  forall s0 s, calm s0 -> run es s0 = Some s -> calm s.
Proof.
  induction es as [|e es IH]; intros s0 s Hc Hrun; simpl in Hrun.
  - now injection Hrun as <-.
  - destruct (step e s0) as [s1|] eqn:Hstep; [|discriminate].
    apply (IH s1 s); [|exact Hrun]. exact (step_calm e s0 s1 Hc Hstep).
Qed.

Lemma mounted_calm : calm mounted.
Proof. split; intros _; [split|]; reflexivity. Qed.

(** C7, as stated, fails: the mount fetch is in flight (loading) when the
    user pulls to refresh (refreshing); both flags are then true. *)
Lemma C7_overlap_sets_both_flags :
  exists s, run [Mounted; PulledToRefresh] mounted = Some s
            /\ inflight s = 2%nat
            /\ loading (state s) = true /\ refreshing (state s) = true
            /\ ~ flags_exclusive (state s).
Proof.
  eexists. split; [reflexivity|]. repeat split. unfold flags_exclusive. simpl.
  discriminate.
Qed.

(** C7 (amended).  In every state the dashboard can reach, whatever
    overlapped before, as long as at most one fetch is in flight at most one of
    [loading] and [refreshing] is true; the two are true together only while
    two or more fetches are in flight.  On any trace, a pull-to-refresh sets
    [refreshing] and leaves [loading] as it was, a mount, timer or retry fetch
    sets [loading] and leaves [refreshing] as it was, and every completion
    clears both, also when a scheduled fetch and a manual refresh are in
    flight at the same time. *)
Theorem C7_flags_exclusive_up_to_one_in_flight (es : list event) (s : Screen) :
  run es mounted = Some s ->
  ((inflight s <= 1)%nat -> flags_exclusive (state s))
  /\ (loading (state s) = true -> refreshing (state s) = true ->
      (2 <= inflight s)%nat)
  /\ (forall e s1 s2, step e s1 = Some s2 ->
       match e with
       | PulledToRefresh =>
           refreshing (state s2) = true /\ loading (state s2) = loading (state s1)
       | Mounted | TimerFired | RetryPressed =>
           loading (state s2) = true /\ refreshing (state s2) = refreshing (state s1)
       | Settled _ _ =>
           loading (state s2) = false /\ refreshing (state s2) = false
       end).
Proof.
  intros Hrun. destruct (run_calm es mounted s mounted_calm Hrun) as [_ Hone].
  split; [exact Hone|]. split; [|apply step_flags].
  intros Hl Hr. destruct (le_lt_dec (inflight s) 1) as [Hle | Hgt]; [|lia].
  specialize (Hone Hle). unfold flags_exclusive in Hone.
  rewrite Hl, Hr in Hone. discriminate Hone.
Qed.

(** C7 after an overlap: the mount fetch and a pull-to-refresh are in flight
    together, one of them fails, the other is still in flight. *)
Lemma C7_flags_exclusive_up_to_one_in_flight_witness :
  exists s,
    run [Mounted; PulledToRefresh; Settled (FetchRejects "Network request failed") 5]
        mounted = Some s
    /\ inflight s = 1%nat
    /\ flags_exclusive (state s).
Proof.
  eexists. split; [reflexivity|]. split; [reflexivity|].
  destruct (C7_flags_exclusive_up_to_one_in_flight
              [Mounted; PulledToRefresh; Settled (FetchRejects "Network request failed") 5]
              _ eq_refl) as (H & _).
  apply H. simpl. lia.
Defined.

(** ** Cards before any prices have arrived *)

Lemma run_no_success_keeps_prices (es : list event) :
  forall s0 s, run es s0 = Some s -> no_success es = true ->
               priceData (state s) = priceData (state s0).
Proof.
  induction es as [|e es IH]; intros s0 s Hrun Hno.
  - simpl in Hrun. now injection Hrun as <-.
  - simpl in Hrun, Hno. apply andb_true_iff in Hno as [He Hno].
    destruct (step e s0) as [s1|] eqn:Hstep; [|discriminate].
    rewrite (IH s1 s Hrun Hno).
    apply (step_keeps_prices _ _ _ Hstep). intros r now ->. exact He.
Qed.

Lemma or_zero_falsy (v : value) : truthy v = false -> or v (VStr "0") = VStr "0".
Proof. apply JSFacts.or_falsy. Qed.

(** C9.  In the initial state the [price] of each of the three cards is the
    string 0, and the cards show it (no spinner).  The same [price] is
    passed in every state reached before a fetch has succeeded, and for
    any snapshot field that is falsy. *)
Theorem C9_initial_price_zero :
  cardPrices initial = [VStr "0"; VStr "0"; VStr "0"]
  /\ cards initial = [ PriceText (VStr "0") "1 gram"; PriceText (VStr "0") "8 gram";
                       PriceText (VStr "0") "1 gram" ]
  /\ (forall es s, run es mounted = Some s -> no_success es = true ->
                   cardPrices (state s) = [VStr "0"; VStr "0"; VStr "0"])
  /\ (forall st,
        (truthy (goldPrice1g (priceData st)) = false ->
         cardPrices st !! 0%nat = Some (VStr "0"))
        /\ (truthy (goldPrice8g (priceData st)) = false ->
            cardPrices st !! 1%nat = Some (VStr "0"))
        /\ (truthy (silverPrice1g (priceData st)) = false ->
            cardPrices st !! 2%nat = Some (VStr "0"))).
Proof.
  split; [reflexivity|]. split; [reflexivity|]. split.
  - intros es s Hrun Hno. unfold cardPrices.
    now rewrite (run_no_success_keeps_prices es mounted s Hrun Hno).
  - intros st. unfold cardPrices. repeat split; intros H; simpl;
      now rewrite or_zero_falsy.
Qed.

(** C9 after a mount fetch that failed: still 0 on every card. *)
Lemma C9_initial_price_zero_witness :
  exists s, run [Mounted; Settled (FetchRejects "Network request failed") 5] mounted
            = Some s
            /\ cardPrices (state s) = [VStr "0"; VStr "0"; VStr "0"].
Proof.
  eexists. split; [reflexivity|].
  destruct C9_initial_price_zero as (_ & _ & H & _).
  apply (H [Mounted; Settled (FetchRejects "Network request failed") 5]); reflexivity.
Defined.

End DashboardFacts.

(* ===================================================================== *)
(** * The interval timer of the dashboard *)
(* ===================================================================== *)

Module LifecycleFacts.
Import Lifecycle.

(** With no timer registered, time passes without any call. *)
Lemma tick_no_timer (e : Env) :
  timers e = ∅ ->
  tick e = {| clock := (clock e + 1)%N; timers := ∅; nextId := nextId e;
              fetchPricesCalls := fetchPricesCalls e |}.
Proof.
  intros H. unfold tick. rewrite H, fmap_empty, map_filter_empty, map_size_empty.
  simpl. now rewrite app_nil_r.
Qed.

Lemma advance_succ (n : N) (e : Env) : advance (N.succ n) e = tick (advance n e).
Proof. unfold advance. apply N.iter_succ. Qed.

Lemma advance_no_timer (n : N) (e : Env) :
  timers e = ∅ ->
  timers (advance n e) = ∅ /\ fetchPricesCalls (advance n e) = fetchPricesCalls e.
Proof.
  intros H. induction n as [|n [IHt IHc]] using N.peano_ind.
  - split; [exact H | reflexivity].
  - rewrite advance_succ, (tick_no_timer _ IHt). simpl. split; [reflexivity | exact IHc].
Qed.

(** One tick with a single timer registered. *)
Lemma tick_single (e : Env) (id : nat) (tm : timer) :
  timers e = {[id := tm]} ->
  tick e = {| clock := (clock e + 1)%N;
              timers := {[id := reschedule (clock e + 1) tm]};
              nextId := nextId e;
              fetchPricesCalls :=
                fetchPricesCalls e ++
                (if is_due (clock e + 1) tm then [((clock e + 1)%N, false)] else []) |}.
Proof.
  intros H. unfold tick. rewrite H, map_fmap_singleton, map_filter_singleton.
  f_equal. f_equal. simpl.
  destruct (is_due (clock e + 1) tm) eqn:E.
  - rewrite decide_True by reflexivity. now rewrite map_size_singleton.
  - rewrite decide_False by discriminate. now rewrite map_size_empty.
Qed.

Section Interval.

(** A screen mounted at time [t0] whose effect registered timer [id] with
    period [p]; [before] are the calls made up to and including the mount. *)
Variables (t0 p : N) (id next : nat) (before : list (N * bool)).
Hypothesis p_pos : (0 < p)%N.

Abbreviation running := (Lifecycle.running t0 p id next before).

Lemma tick_running_wait (q : nat) (r : N) :
  (r + 1 < p)%N -> tick (running q r) = running q (r + 1).
Proof.
  intros Hr. rewrite (tick_single (running q r) id _ eq_refl).
  unfold Lifecycle.running, is_due, reschedule, is_due. simpl clock. simpl due.
  replace (t0 + N.of_nat (S q) * p =? t0 + N.of_nat q * p + r + 1)%N with false
    by (symmetry; apply N.eqb_neq; lia).
  rewrite app_nil_r. f_equal. lia.
Qed.

Lemma tick_running_fire (q : nat) (r : N) :
  (r + 1 = p)%N -> tick (running q r) = running (S q) 0.
Proof.
  intros Hr. rewrite (tick_single (running q r) id _ eq_refl).
  unfold Lifecycle.running, is_due, reschedule, is_due. simpl clock. simpl due. simpl period.
  replace (t0 + N.of_nat (S q) * p =? t0 + N.of_nat q * p + r + 1)%N with true
    by (symmetry; apply N.eqb_eq; lia).
  f_equal.
  - lia.
  - do 2 f_equal. lia.
  - rewrite seq_S, map_app, app_assoc. simpl. do 3 f_equal. lia.
Qed.

(** After [n] milliseconds the timer has fired [n / p] times. *)
Lemma advance_running (n : N) :
  advance n (running 0 0) = running (N.to_nat (n / p)) (n mod p).
Proof.
  induction n as [|n IH] using N.peano_ind.
  - unfold advance. simpl N.iter. rewrite N.Div0.div_0_l, N.Div0.mod_0_l. reflexivity.
  - rewrite advance_succ, IH.
    pose proof (N.mod_upper_bound n p ltac:(lia)) as Hlt.
    pose proof (N.div_mod n p ltac:(lia)) as Hn.
    destruct (N.eq_dec (n mod p + 1)%N p) as [Hfire | Hwait].
    + rewrite tick_running_fire by exact Hfire.
      assert (N.succ n = p * (n / p + 1) + 0)%N as Hs by lia.
      rewrite <- (N.div_unique (N.succ n) p (n / p + 1) 0 ltac:(lia) Hs).
      rewrite <- (N.mod_unique (N.succ n) p (n / p + 1) 0 ltac:(lia) Hs).
      f_equal. lia.
    + rewrite tick_running_wait by lia.
      assert (N.succ n = p * (n / p) + (n mod p + 1))%N as Hs by lia.
      rewrite <- (N.div_unique (N.succ n) p (n / p) (n mod p + 1) ltac:(lia) Hs).
      rewrite <- (N.mod_unique (N.succ n) p (n / p) (n mod p + 1) ltac:(lia) Hs).
      reflexivity.
Qed.

End Interval.

(** The environment right after the mount effect. *)
Lemma mount_running (e0 : Env) :
  timers e0 = ∅ ->
  mount e0
  = (running (clock e0) 600000 (nextId e0) (S (nextId e0))
       (fetchPricesCalls e0 ++ [(clock e0, false)]) 0 0,
     nextId e0).
Proof.
  intros H. unfold mount, setInterval, callFetchPrices, running. simpl.
  rewrite H, insert_empty, app_nil_r. f_equal. f_equal. lia.
Qed.

Lemma unmount_running (t0 p : N) (id next : nat) before q r :
  timers (unmount id (running t0 p id next before q r)) = ∅
  /\ fetchPricesCalls (unmount id (running t0 p id next before q r))
     = fetchPricesCalls (running t0 p id next before q r).
Proof.
  split; [|reflexivity]. unfold unmount, clearInterval, running. simpl.
  apply delete_singleton_eq.
Qed.

(** C8.  Mounting the dashboard (no timer registered before) calls
    [fetchPrices()] once at once; while the screen stays mounted, the calls
    made within [ms] milliseconds are that one followed by one call every
    600000 milliseconds, at [t0 + 600000], [t0 + 1200000], ... up to
    [t0 + ms]; after the cleanup at unmount no further call is made, however
    much time passes. *)
Theorem C8_mount_timer_unmount (e0 : Env) (ms later : N) :
  timers e0 = ∅ ->
  let e1 := fst (mount e0) in
  let interval := snd (mount e0) in
  fetchPricesCalls e1 = (fetchPricesCalls e0 ++ [(clock e0, false)])%list
  /\ clock (advance ms e1) = (clock e0 + ms)%N
  /\ fetchPricesCalls (advance ms e1)
     = (fetchPricesCalls e0 ++ (clock e0, false) :: timer_times (clock e0) 600000 ms)%list
  /\ fetchPricesCalls (advance later (unmount interval (advance ms e1)))
     = fetchPricesCalls (advance ms e1).
Proof.
  intros H e1 interval. subst e1 interval. rewrite (mount_running e0 H).
  cbn [fst snd]. rewrite (advance_running _ 600000) by lia.
  split; [|split; [|split]].
  - unfold running. simpl. now rewrite app_nil_r.
  - unfold running. cbn [clock].
    pose proof (N.div_mod ms 600000 ltac:(lia)). lia.
  - unfold running, timer_times. cbn [fetchPricesCalls].
    now rewrite <- app_assoc.
  - destruct (unmount_running (clock e0) 600000 (nextId e0) (S (nextId e0))
                (fetchPricesCalls e0 ++ [(clock e0, false)])
                (N.to_nat (ms / 600000)) (ms mod 600000)) as [Ht Hc].
    destruct (advance_no_timer later _ Ht) as [_ Hl]. now rewrite Hl, Hc.
Qed.

(** C8 at a mount at time 1000 of a freshly started application, observed
    for 25 minutes (1500000 ms), then unmounted and observed for an hour. *)
Lemma C8_mount_timer_unmount_witness :
  fetchPricesCalls (advance 1500000 (fst (mount (boot 1000))))
  = [(1000%N, false); (601000%N, false); (1201000%N, false)]
  /\ fetchPricesCalls
       (advance 3600000
          (unmount (snd (mount (boot 1000)))
             (advance 1500000 (fst (mount (boot 1000))))))
     = [(1000%N, false); (601000%N, false); (1201000%N, false)].
Proof.
  destruct (C8_mount_timer_unmount (boot 1000) 1500000 3600000 eq_refl)
    as (_ & _ & H1 & H2).
  rewrite H2, H1. split; reflexivity.
Defined.

End LifecycleFacts.

(* ===================================================================== *)
(** * The login screen *)
(* ===================================================================== *)

Module LoginFacts.
Import JS Login.

(** ** Validation *)

(** A rejected submission: no request leaves, [loading] stays as it was and
    the error is a validation message. *)
Lemma rejected_locally (st : State) :
  fst (validateInputs (setError (VStr "") st)) = false ->
  snd (handleLogin_call st) = []
  /\ loading (fst (handleLogin_call st)) = loading st
  /\ validation_message (error (fst (handleLogin_call st))).
Proof.
  unfold handleLogin_call, validateInputs, validation_message. simpl.
  destruct (trim (mobileNumber st) =? ""); simpl; [auto|].
  destruct (trim (password st) =? ""); simpl; [auto|].
  destruct (String.length (mobileNumber st) <? 10)%nat; simpl; [auto 6|].
  discriminate.
Qed.

(** What the code does check: a mobile number of fewer than 10 characters,
    white space included, is rejected locally. *)
Lemma short_input_rejected (st : State) :
  (String.length (mobileNumber st) < 10)%nat ->
  snd (handleLogin_call st) = []
  /\ validation_message (error (fst (handleLogin_call st))).
Proof.
  intros Hlen. destruct (rejected_locally st) as (H1 & _ & H2); [|auto].
  unfold validateInputs. simpl.
  destruct (trim (mobileNumber st) =? ""); [reflexivity|].
  destruct (trim (password st) =? ""); [reflexivity|].
  apply Nat.ltb_lt in Hlen. now rewrite Hlen.
Qed.

(** C3 fails on the code.  The mobile number "12345" followed by five
    spaces has 10 characters but only 5 after trimming; with the password
    "secret", [validateInputs] accepts it and [handleLogin] issues the login
    request with the padded number in its URL. *)
Theorem C3_padded_short_number_is_submitted :
  let st := setPassword "secret" (setMobileNumber "12345     " initial) in
  String.length (trim (mobileNumber st)) = 5%nat
  /\ String.length (mobileNumber st) = 10%nat
  /\ fst (validateInputs (setError (VStr "") st)) = true
  /\ handleLogin_call st
     = (setLoading true (setError (VStr "") st),
        [Fetch "http://smjuthangarai.in/RestApi/restApiPHP.php?option=LoginVerifyCustomer&mobileNumber=12345     &password=secret"]).
Proof. repeat split. Qed.

(** ** Interpretation of the response *)








End LoginFacts.

(* ===================================================================== *)
(** * The login screen: every outcome, and the screen under use *)
(* ===================================================================== *)

Module LoginScreenFacts.
Import JS Login.

Lemma eqb_false_neq (a b : string) : (a =? b) = false <-> a <> b.
Proof. apply String.eqb_neq. Qed.

(** X1.  The decision table of a press on Sign In.  A blank mobile number
    gives "Mobile number is required", whatever the password; otherwise a
    blank password gives "Password is required", even when the number is too
    short; otherwise a number of fewer than 10 characters gives "Please enter
    a valid mobile number"; in these three cases no request is issued and
    [loading] is not touched.  In the remaining case the error is cleared,
    [loading] is set and exactly one request, to the login URL of the form as
    typed, is issued. *)
Theorem handleLogin_call_cases (st : State) :
  (trim (mobileNumber st) = "" ->
   handleLogin_call st = (setError (VStr "Mobile number is required") st, []))
  /\ (trim (mobileNumber st) <> "" -> trim (password st) = "" ->
      handleLogin_call st = (setError (VStr "Password is required") st, []))
  /\ (trim (mobileNumber st) <> "" -> trim (password st) <> "" ->
      (String.length (mobileNumber st) < 10)%nat ->
      handleLogin_call st
      = (setError (VStr "Please enter a valid mobile number") st, []))
  /\ (trim (mobileNumber st) <> "" -> trim (password st) <> "" ->
      (10 <= String.length (mobileNumber st))%nat ->
      handleLogin_call st
      = (setLoading true (setError (VStr "") st), [Fetch (loginUrl st)])).
Proof.
  unfold handleLogin_call, validateInputs. simpl.
  split; [|split; [|split]].
  - intros ->. reflexivity.
  - intros Hm Hp. apply eqb_false_neq in Hm. rewrite Hm, Hp. reflexivity.
  - intros Hm Hp Hl. apply eqb_false_neq in Hm, Hp. apply Nat.ltb_lt in Hl.
    rewrite Hm, Hp, Hl. reflexivity.
  - intros Hm Hp Hl. apply eqb_false_neq in Hm, Hp. apply Nat.ltb_ge in Hl.
    rewrite Hm, Hp, Hl. reflexivity.
Qed.

(** X1 at the number "12345" with a password of three spaces: the password
    message, although the number is too short as well. *)
Lemma handleLogin_call_cases_witness :
  handleLogin_call (setPassword "   " (setMobileNumber "12345" initial))
  = (setError (VStr "Password is required")
       (setPassword "   " (setMobileNumber "12345" initial)), []).
Proof.
  destruct (handleLogin_call_cases (setPassword "   " (setMobileNumber "12345" initial)))
    as (_ & H & _).
  apply H; [discriminate | reflexivity].
Defined.


Lemma catch_shows_error (st : State) (message : string) :
  snd (handleLogin_catch st message) = []
  /\ truthy (error (fst (handleLogin_catch st message))) = true
  /\ mobileNumber (fst (handleLogin_catch st message)) = mobileNumber st
  /\ password (fst (handleLogin_catch st message)) = password st.
Proof.
  rewrite Classification.login_catch_classify. destruct (classify message);
    repeat split.
Qed.


(** ** The screen under use *)

Lemma loginUrl_urlFor (st : State) :
  loginUrl st = urlFor (mobileNumber st) (password st).
Proof. reflexivity. Qed.

(** What a press does, given the state. *)
Lemma press_result (st : State) :
  (handleLogin_call st = (fst (handleLogin_call st), [])
   /\ loading (fst (handleLogin_call st)) = loading st
   /\ mobileNumber (fst (handleLogin_call st)) = mobileNumber st)
  \/ (handleLogin_call st = (setLoading true (setError (VStr "") st), [Fetch (loginUrl st)])
      /\ trim (mobileNumber st) <> "" /\ trim (password st) <> ""
      /\ (10 <= String.length (mobileNumber st))%nat).
Proof.
  unfold handleLogin_call, validateInputs. simpl.
  destruct (trim (mobileNumber st) =? "") eqn:Hm; [left; repeat split|].
  destruct (trim (password st) =? "") eqn:Hp; [left; repeat split|].
  destruct (String.length (mobileNumber st) <? 10)%nat eqn:Hl; [left; repeat split|].
  right. apply eqb_false_neq in Hm, Hp. apply Nat.ltb_ge in Hl. auto.
Qed.

(** The shape of the result of a settled request. *)
Lemma settle_shape (r : fetch_result) (st : State) :
  loading (fst (handleLogin_settle r st)) = false
  /\ mobileNumber (fst (handleLogin_settle r st)) = mobileNumber st
  /\ (snd (handleLogin_settle r st) = [Navigate "/dashboard"]
      \/ snd (handleLogin_settle r st) = []).
Proof.
  unfold handleLogin_settle, try_catch_finally. split; [reflexivity|].
  destruct (await_json r _) as [[st' fx] | message] eqn:E.
  - unfold await_json in E. destruct r as [? | response]; [discriminate|].
    destruct (negb (ok response)); [discriminate|].
    destruct (body response) as [data|]; [|discriminate].
    destruct (loginSucceeded data); injection E as <- <-; simpl; auto.
  - destruct (catch_shows_error st message) as (H1 & _ & H3 & _).
    cbn [fst snd]. rewrite H1. auto.
Qed.

Lemma step_steady (e : event) (s s' : Screen) :
  steady s -> step e s = Some s' -> steady s'.
Proof.
  intros (Hle & Hld & Hlen & Hfx) Hstep.
  destruct e as [text | text | | r]; cbn [step] in Hstep.
  - destruct (loading (state s)) eqn:Hl; [discriminate|].
    destruct (10 <? String.length text)%nat eqn:Ht; [discriminate|]. simpl in Hstep.
    injection Hstep as <-. apply Nat.ltb_ge in Ht.
    unfold steady. simpl. rewrite Hl. auto.
  - destruct (loading (state s)) eqn:Hl; [discriminate|].
    injection Hstep as <-. unfold steady. simpl. rewrite Hl. auto.
  - destruct (loading (state s)) eqn:Hl; [discriminate|].
    injection Hstep as <-.
    assert (inflight s = 0%nat) as Hz.
    { destruct (inflight s) as [|[|n]]; [reflexivity | | lia].
      destruct Hld as [_ H]. discriminate (H eq_refl). }
    unfold steady. cbn [state inflight effects].
    destruct (press_result (state s)) as [(E & El & Em) | (E & Hm & Hp & Hge)];
      rewrite E; cbn [fst snd length].
    + rewrite El, Em, Hl, Hz, app_nil_r. repeat split; auto; try discriminate; lia.
    + rewrite Hz. repeat split; auto.
      apply Forall_app. split; [exact Hfx|]. constructor; [|constructor].
      exists (mobileNumber (state s)), (password (state s)).
      repeat split; auto. simpl in Hlen. lia.
  - destruct (inflight s) as [|n] eqn:Hn; [discriminate|].
    pose proof (settle_shape r (state s)) as Hout.
    set (out := handleLogin_settle r (state s)) in *. clearbody out.
    injection Hstep as <-. destruct Hout as (H1 & H2 & H4).
    unfold steady. cbn [state inflight effects]. rewrite H1, H2.
    assert (n = 0%nat) as -> by lia.
    repeat split; auto; try discriminate.
    apply Forall_app. split; [exact Hfx|].
    destruct H4 as [-> | ->]; repeat constructor.
Qed.

Lemma run_steady (es : list event) :
  forall s s', steady s -> run es s = Some s' -> steady s'.
Proof.
  induction es as [|e es IH]; intros s s' Hs Hrun; simpl in Hrun.
  - now injection Hrun as <-.
  - destruct (step e s) as [s1|] eqn:Hstep; [|discriminate].
    apply (IH s1 s'); [|exact Hrun]. exact (step_steady e s s1 Hs Hstep).
Qed.

Lemma opened_steady : steady opened.
Proof.
  unfold steady, opened. simpl. repeat split; auto; try discriminate. lia.
Qed.

(** X3.  No second submission while a login request is in flight.  In every
    state the login screen can reach, at most one request is in flight and
    [loading] is true exactly while one is; a press on Sign In, and a
    change of either input, is only accepted when none is. *)
Theorem login_single_flight (es : list event) (s : Screen) :
  run es opened = Some s ->
  (inflight s <= 1)%nat
  /\ (loading (state s) = true <-> inflight s = 1%nat)
  /\ (forall e s', step e s = Some s' ->
       match e with Settled _ => inflight s = 1%nat | _ => inflight s = 0%nat end).
Proof.
  intros Hrun.
  destruct (run_steady es opened s opened_steady Hrun) as (Hle & Hld & _ & _).
  split; [exact Hle|]. split; [exact Hld|].
  intros e s' Hstep.
  assert (loading (state s) = false -> inflight s = 0%nat) as Hidle.
  { intros Hl. destruct (inflight s) as [|[|n]]; [reflexivity | | lia].
    destruct Hld as [_ H]. rewrite (H eq_refl) in Hl. discriminate. }
  destruct e as [text | text | | r]; cbn [step] in Hstep.
  - destruct (loading (state s)); [discriminate | now apply Hidle].
  - destruct (loading (state s)); [discriminate | now apply Hidle].
  - destruct (loading (state s)); [discriminate | now apply Hidle].
  - destruct (inflight s) as [|n]; [discriminate | lia].
Qed.

(** X3 after the credentials of the specification's scenario were typed and
    Sign In was pressed: one request is in flight, and a second press is
    refused. *)
Lemma login_single_flight_witness :
  exists s,
    run [ChangeMobileNumber "9876543210"; ChangePassword "secret"; PressSignIn] opened
    = Some s
    /\ inflight s = 1%nat /\ loading (state s) = true /\ step PressSignIn s = None.
Proof.
  eexists. split; [reflexivity|].
  destruct (login_single_flight
              [ChangeMobileNumber "9876543210"; ChangePassword "secret"; PressSignIn]
              _ eq_refl) as (_ & Hld & _).
  split; [reflexivity|]. split; [apply Hld; reflexivity | reflexivity].
Defined.

(** X4.  Under the input limits of the screen, every login request that was
    issued carries a mobile number of exactly 10 characters, not all white
    space, and a password that is not blank; the only navigation the screen
    performs is to the dashboard; and the mobile number held never exceeds 10
    characters. *)
Theorem login_requests_well_formed (es : list event) (s : Screen) :
  run es opened = Some s ->
  Forall well_formed_effect (effects s)
  /\ (String.length (mobileNumber (state s)) <= 10)%nat.
Proof.
  intros Hrun.
  destruct (run_steady es opened s opened_steady Hrun) as (_ & _ & Hlen & Hfx).
  split; assumption.
Qed.

(** X4 on a session: a short number is refused, the corrected number is
    sent, the server refuses the password. *)
Lemma login_requests_well_formed_witness :
  exists s,
    run [ChangeMobileNumber "98765"; ChangePassword "secret"; PressSignIn;
         ChangeMobileNumber "9876543210"; PressSignIn;
         Settled (answered (VObj (<["message" := VStr "Invalid password"]> ∅)))]
        opened = Some s
    /\ effects s = [Fetch (urlFor "9876543210" "secret")]
    /\ Forall well_formed_effect (effects s).
Proof.
  eexists. split; [reflexivity|]. split; [reflexivity|].
  apply (login_requests_well_formed
           [ChangeMobileNumber "98765"; ChangePassword "secret"; PressSignIn;
            ChangeMobileNumber "9876543210"; PressSignIn;
            Settled (answered (VObj (<["message" := VStr "Invalid password"]> ∅)))]).
  reflexivity.
Defined.

(** ** The login URL and the credentials *)

Lemma append_inj_l (a x y : string) : a ++ x = a ++ y -> x = y.
Proof. induction a as [|c a IH]; simpl; [auto|]. intros [= H]. auto. Qed.

Lemma append_inj_length (m1 m2 x y : string) :
  String.length m1 = String.length m2 -> m1 ++ x = m2 ++ y -> m1 = m2 /\ x = y.
Proof.
  revert m2. induction m1 as [|c m1 IH]; intros [|d m2]; simpl; try discriminate.
  - auto.
  - intros [= Hl] [= -> H]. destruct (IH m2 Hl H) as [-> ->]. auto.
Qed.

(** X5.  The credentials are put into the URL as they are, without any
    encoding.  Two forms whose mobile numbers have the same length (as the
    10-character numbers the screen sends) and that give the same URL hold
    the same mobile number and password; without the length condition, this
    fails: both forms below pass validation and give the same URL. *)
Theorem loginUrl_determines_credentials :
  (forall st1 st2 : State,
      String.length (mobileNumber st1) = String.length (mobileNumber st2) ->
      loginUrl st1 = loginUrl st2 ->
      mobileNumber st1 = mobileNumber st2 /\ password st1 = password st2)
  /\ (let st1 := setPassword "a&password=b" (setMobileNumber "1234567890" initial) in
      let st2 := setPassword "b" (setMobileNumber "1234567890&password=a" initial) in
      fst (validateInputs st1) = true /\ fst (validateInputs st2) = true
      /\ loginUrl st1 = loginUrl st2 /\ password st1 <> password st2).
Proof.
  split.
  - intros st1 st2 Hlen Hurl. unfold loginUrl in Hurl.
    apply append_inj_l in Hurl.
    destruct (append_inj_length _ _ _ _ Hlen Hurl) as [Hm Hp].
    split; [exact Hm|]. now apply append_inj_l in Hp.
  - repeat split. discriminate.
Qed.

(** X5 at two forms with the scenario's number and different passwords: the
    URLs differ. *)
Lemma loginUrl_determines_credentials_witness :
  loginUrl (setPassword "secret" (setMobileNumber "9876543210" initial))
  <> loginUrl (setPassword "Secret" (setMobileNumber "9876543210" initial)).
Proof.
  intros H.
  destruct loginUrl_determines_credentials as [Hinj _].
  destruct (Hinj (setPassword "secret" (setMobileNumber "9876543210" initial))
                 (setPassword "Secret" (setMobileNumber "9876543210" initial))
                 eq_refl H) as [_ Hp].
  discriminate Hp.
Defined.

End LoginScreenFacts.

(* ===================================================================== *)
(** * The dashboard under overlapping fetches *)
(* ===================================================================== *)

Module DashboardTraceFacts.
Import JS Dashboard.

Lemma success_data_failed (r : fetch_result) :
  match success_data r with
  | Some data =>
      failed r = false
      /\ forall now st,
          fetchPrices_settle r now st
          = fetchPrices_finally
              (setLastUpdated (Some now) (setPriceData (priceDataOf data) st))
  | None => failed r = true
  end.
Proof.
  unfold success_data, failed, fetchPrices_settle, try_catch_finally, await_json.
  destruct r as [message | response]; [reflexivity|].
  destruct (ok response); simpl; [|reflexivity].
  destruct (body response) as [data | message]; [|reflexivity].
  destruct (truthy data) eqn:Hd; simpl; [|reflexivity].
  split; [reflexivity|]. intros now st. reflexivity.
Qed.

Lemma step_last_success (e : event) (s s' : Screen) :
  step e s = Some s' ->
  (priceData (state s'), lastUpdated (state s'))
  = last_success [e] (priceData (state s), lastUpdated (state s)).
Proof.
  intros Hstep. destruct e as [ | | | | r now]; cbn [step] in Hstep;
    try (injection Hstep as <-; reflexivity).
  destruct (inflight s); [discriminate|].
  pose proof (success_data_failed r) as H.
  set (st' := fetchPrices_settle r now (state s)) in *.
  injection Hstep as <-. cbn [state last_success fold_left].
  destruct (success_data r) as [data|].
  - destruct H as [_ H]. subst st'. rewrite H. reflexivity.
  - destruct (DashboardFacts.settle_failed_keeps_prices r now (state s) H)
      as [E1 E2]. subst st'. now rewrite E1, E2.
Qed.

Lemma last_success_cons (e : event) (es : list event) acc :
  last_success (e :: es) acc = last_success es (last_success [e] acc).
Proof. reflexivity. Qed.

Lemma run_last_success (es : list event) :
  forall s s', run es s = Some s' ->
  (priceData (state s'), lastUpdated (state s'))
  = last_success es (priceData (state s), lastUpdated (state s)).
Proof.
  induction es as [|e es IH]; intros s s' Hrun; simpl in Hrun.
  - now injection Hrun as <-.
  - destruct (step e s) as [s1|] eqn:Hstep; [|discriminate].
    rewrite last_success_cons, <- (step_last_success e s s1 Hstep).
    now apply IH.
Qed.

Lemma last_success_none (es : list event) acc :
  no_success es = true -> last_success es acc = acc.
Proof.
  induction es as [|e es IH]; intros H; [reflexivity|]. simpl in H.
  apply andb_true_iff in H as [He Hes].
  rewrite last_success_cons.
  assert (last_success [e] acc = acc) as ->; [|now apply IH].
  destruct e as [ | | | | r now]; try reflexivity. simpl.
  pose proof (success_data_failed r) as Hr.
  destruct (success_data r); [|reflexivity]. destruct Hr as [Hr _]. congruence.
Qed.

Lemma last_success_app (es1 es2 : list event) acc :
  last_success (es1 ++ es2) acc = last_success es2 (last_success es1 acc).
Proof. unfold last_success. apply fold_left_app. Qed.

(** X6.  The last response to resolve wins.  Take any sequence of mounts,
    timer firings, retries, pulls and completions, overlapping or not, in
    which a completion with prices at time [now] is followed only by
    events that produce no prices.  Then the snapshot on screen is the one of
    that response and [lastUpdated] is [now], whatever was fetched before and
    whichever fetch was started first. *)
Theorem last_response_wins
    (es1 es2 : list event) (r : fetch_result) (now : Z) (data : value) (s : Screen) :
  run (es1 ++ Settled r now :: es2) mounted = Some s ->
  success_data r = Some data ->
  no_success es2 = true ->
  priceData (state s) = priceDataOf data /\ lastUpdated (state s) = Some now.
Proof.
  intros Hrun Hr Hes2.
  pose proof (run_last_success _ mounted s Hrun) as H.
  rewrite last_success_app, last_success_cons, (last_success_none es2) in H
    by exact Hes2.
  simpl in H. rewrite Hr in H. now injection H as -> ->.
Qed.

(** X6 with two fetches in flight: the mount fetch and a pull-to-refresh are
    both pending, the answer with 6300 resolves at time 10 and the answer
    with 6200 at time 20, then a timer fetch fails.  The screen shows 6200. *)
Lemma last_response_wins_witness :
  exists s,
    run ([Mounted; PulledToRefresh;
          Settled (FetchResolves
                     {| status := 200;
                        body := JsonValue (VObj (<["goldPrice1g" := VStr "6300"]> ∅)) |})
                  10]
         ++ Settled (FetchResolves
                       {| status := 200;
                          body := JsonValue (VObj (<["goldPrice1g" := VStr "6200"]> ∅)) |})
                    20
         :: [TimerFired; Settled (FetchRejects "Network request failed") 30])
        mounted = Some s
    /\ goldPrice1g (priceData (state s)) = VStr "6200"
    /\ lastUpdated (state s) = Some 20%Z.
Proof.
  eexists. split; [reflexivity|].
  match goal with
  | |- context [state ?s] =>
      destruct (last_response_wins
                  [Mounted; PulledToRefresh;
                   Settled (FetchResolves
                              {| status := 200;
                                 body := JsonValue
                                           (VObj (<["goldPrice1g" := VStr "6300"]> ∅)) |})
                           10]
                  [TimerFired; Settled (FetchRejects "Network request failed") 30]
                  _ 20 _ s eq_refl eq_refl eq_refl) as [Hp Hl]
  end.
  split; [rewrite Hp; reflexivity | exact Hl].
Defined.

(** ** The flags when nothing is in flight *)

Lemma step_idle_flags (e : event) (s s' : Screen) :
  step e s = Some s' -> inflight s' = 0%nat ->
  loading (state s') = false /\ refreshing (state s') = false.
Proof.
  intros Hstep Hidle. destruct e as [ | | | | r now]; cbn [step] in Hstep;
    try (injection Hstep as <-; discriminate Hidle).
  destruct (inflight s); [discriminate|].
  set (st' := fetchPrices_settle r now (state s)) in *.
  injection Hstep as <-. subst st'. apply DashboardFacts.settle_clears_flags.
Qed.

Lemma run_snoc_inv (es : list event) (e : event) :
  forall s s', run (es ++ [e]) s = Some s' ->
               exists s1, run es s = Some s1 /\ step e s1 = Some s'.
Proof.
  induction es as [|e0 es IH]; intros s s' Hrun; simpl in Hrun.
  - destruct (step e s) as [s1|] eqn:E; [|discriminate]. injection Hrun as <-.
    exists s. split; [reflexivity | exact E].
  - destruct (step e0 s) as [s1|] eqn:E; [|discriminate].
    destruct (IH s1 s' Hrun) as (s2 & H1 & H2). exists s2. simpl. now rewrite E.
Qed.

(** X7.  No indicator gets stuck.  In every state the dashboard can reach,
    with fetches overlapping or not and whether they succeed or fail, once
    no fetch is in flight both [loading] and [refreshing] are false, so that
    no card is asked to show the spinner; where the prices to show are
    strings or numbers, the three cards show them. *)
Theorem idle_flags_down (es : list event) (s : Screen) :
  run es mounted = Some s -> inflight s = 0%nat ->
  loading (state s) = false /\ refreshing (state s) = false
  /\ ~ In ActivityIndicator (cards (state s))
  /\ (Forall (fun v => is_text v = true) (cardPrices (state s)) ->
      cards (state s)
      = [ PriceText (or (goldPrice1g (priceData (state s))) (VStr "0")) "1 gram";
          PriceText (or (goldPrice8g (priceData (state s))) (VStr "0")) "8 gram";
          PriceText (or (silverPrice1g (priceData (state s))) (VStr "0")) "1 gram" ]).
Proof.
  intros Hrun Hidle.
  assert (loading (state s) = false /\ refreshing (state s) = false) as [Hl Hr].
  { destruct es as [|e es] using rev_ind.
    - simpl in Hrun. injection Hrun as <-. split; reflexivity.
    - destruct (run_snoc_inv es e mounted s Hrun) as (s1 & _ & Hstep).
      exact (step_idle_flags e s1 s Hstep Hidle). }
  split; [exact Hl|]. split; [exact Hr|].
  unfold cards, PriceCard. rewrite Hl, Hr. simpl. split.
  - intros [H | [H | [H | []]]]; discriminate H.
  - intros _. reflexivity.
Qed.

(** X7 after the mount fetch and a pull-to-refresh, both in flight, have
    both failed. *)
Lemma idle_flags_down_witness :
  exists s,
    run [Mounted; PulledToRefresh; Settled (FetchRejects "timeout") 10;
         Settled (FetchRejects "timeout") 20] mounted = Some s
    /\ loading (state s) = false /\ refreshing (state s) = false
    /\ cards (state s)
       = [ PriceText (VStr "0") "1 gram"; PriceText (VStr "0") "8 gram";
           PriceText (VStr "0") "1 gram" ].
Proof.
  eexists. split; [reflexivity|].
  match goal with
  | |- context [state ?s] =>
      destruct (idle_flags_down
                  [Mounted; PulledToRefresh; Settled (FetchRejects "timeout") 10;
                   Settled (FetchRejects "timeout") 20] s eq_refl eq_refl)
        as (Hl & Hr & _ & Hc)
  end.
  split; [exact Hl|]. split; [exact Hr|].
  rewrite Hc; [reflexivity|]. repeat constructor.
Defined.

(** ** The error banner after a fetch *)

Lemma run_app_inv (es1 es2 : list event) :
  forall s s', run (es1 ++ es2) s = Some s' ->
               exists s1, run es1 s = Some s1 /\ run es2 s1 = Some s'.
Proof.
  induction es1 as [|e es1 IH]; intros s s' Hrun; simpl in Hrun.
  - exists s. split; [reflexivity | exact Hrun].
  - destruct (step e s) as [s1|] eqn:E; [|discriminate].
    destruct (IH s1 s' Hrun) as (s2 & H1 & H2). exists s2. simpl. now rewrite E.
Qed.

(** A failed completion puts one of the four messages in [error]. *)
Lemma settle_failed_message (r : fetch_result) (now : Z) (st : State) :
  failed r = true -> In (error (fetchPrices_settle r now st)) banner_messages.
Proof.
  unfold fetchPrices_settle, try_catch_finally, await_json, failed.
  destruct r as [message | response].
  - intros _. rewrite Classification.dashboard_catch_classify.
    destruct (classify message); simpl; auto.
  - destruct (ok response); simpl.
    + destruct (body response) as [data | message].
      * destruct (truthy data); simpl; [discriminate | auto 6].
      * intros _. rewrite Classification.dashboard_catch_classify.
        destruct (classify message); simpl; auto.
    + intros _. rewrite Classification.dashboard_catch_classify.
      destruct (classify _); simpl; auto.
Qed.

(** A completion that produced prices leaves [error] as it is. *)
Lemma settle_success_keeps_error (r : fetch_result) (now : Z) (st : State) :
  failed r = false -> error (fetchPrices_settle r now st) = error st.
Proof.
  intros H.
  destruct (DashboardFacts.settle_success r now st H) as (? & ? & _ & _ & _ & _ & ->).
  reflexivity.
Qed.

Lemma run_successes_keep_error (es : list event) :
  forall s s', run es s = Some s' -> only_successes es = true ->
               error (state s') = error (state s).
Proof.
  induction es as [|e es IH]; intros s s' Hrun Hok; simpl in Hrun.
  - now injection Hrun as <-.
  - simpl in Hok. apply andb_true_iff in Hok as [He Hok].
    destruct e as [ | | | | r now]; try discriminate He.
    apply negb_true_iff in He. cbn [step] in Hrun.
    destruct (inflight s) as [|n]; [discriminate|].
    rewrite (IH _ s' Hrun Hok). cbn [state].
    now apply settle_success_keeps_error.
Qed.

Lemma banner_of_message (st : State) :
  In (error st) banner_messages -> errorBanner st = Some (error st).
Proof.
  unfold errorBanner, banner_messages.
  intros [<- | [<- | [<- | [<- | []]]]]; reflexivity.
Qed.

(** X8.  The error banner follows the latest fetch that was started or that
    failed; a completion with prices leaves it as it is.  In any sequence of
    events, overlapping or not: if the last event other than completions
    with prices is the start of a fetch (mount, timer, retry or pull), the
    error is empty and no banner is shown; if it is a failed completion, the
    banner shows one of the four messages of the dashboard, also when a fetch
    that was in flight beside it produced prices afterwards. *)
Theorem banner_follows_last_call_or_failure
    (es1 es2 : list event) (e : event) (s : Screen) :
  run (es1 ++ e :: es2) mounted = Some s ->
  only_successes es2 = true ->
  match e with
  | Settled r _ =>
      failed r = true ->
      In (error (state s)) banner_messages
      /\ errorBanner (state s) = Some (error (state s))
  | _ => error (state s) = "" /\ errorBanner (state s) = None
  end.
Proof.
  intros Hrun Hok.
  destruct (run_app_inv es1 (e :: es2) mounted s Hrun) as (s1 & _ & Hrest).
  simpl in Hrest. destruct (step e s1) as [s2|] eqn:Hstep; [|discriminate].
  pose proof (run_successes_keep_error es2 s2 s Hrest Hok) as Herr.
  assert (error (state s) = "" -> error (state s) = "" /\ errorBanner (state s) = None)
    as Hnone.
  { intros H. split; [exact H|]. unfold errorBanner. now rewrite H. }
  destruct e as [ | | | | r now]; cbn [step] in Hstep;
    try (injection Hstep as <-; apply Hnone; rewrite Herr; reflexivity).
  intros Hfail. destruct (inflight s1) as [|n]; [discriminate|].
  assert (In (error (state s)) banner_messages) as Hin.
  { rewrite Herr. injection Hstep as <-. cbn [state].
    now apply settle_failed_message. }
  split; [exact Hin | now apply banner_of_message].
Qed.

(** X8 with the mount fetch and a pull-to-refresh in flight together: the
    first fails, the second brings prices, and the banner of the failure stays
    up beside them; once a retry is started the banner is gone. *)
Lemma banner_follows_last_call_or_failure_witness :
  let good := FetchResolves
    {| status := 200;
       body := JsonValue (VObj (<["goldPrice1g" := VStr "6200"]> ∅)) |} in
  let bad := FetchRejects "Network request failed" in
  (exists s,
      run ([Mounted; PulledToRefresh] ++ Settled bad 5 :: [Settled good 9]) mounted
      = Some s
      /\ goldPrice1g (priceData (state s)) = VStr "6200"
      /\ errorBanner (state s)
         = Some "Network connection error. Please check your internet connection.")
  /\ (exists s,
        run ([Mounted; PulledToRefresh; Settled bad 5] ++ RetryPressed :: [Settled good 9])
            mounted = Some s
        /\ errorBanner (state s) = None).
Proof.
  intros good bad. split.
  - eexists. split; [reflexivity|]. split; [reflexivity|].
    match goal with
    | |- errorBanner (state ?s) = _ =>
        destruct (banner_follows_last_call_or_failure
                    [Mounted; PulledToRefresh] [Settled good 9] (Settled bad 5) s
                    eq_refl eq_refl eq_refl) as [_ H]
    end.
    rewrite H. reflexivity.
  - eexists. split; [reflexivity|].
    match goal with
    | |- errorBanner (state ?s) = _ =>
        destruct (banner_follows_last_call_or_failure
                    [Mounted; PulledToRefresh; Settled bad 5] [Settled good 9]
                    RetryPressed s eq_refl eq_refl) as [_ H]
    end.
    exact H.
Defined.

(** ** Pull-to-refresh and the cards *)

Lemma start_keeps_refreshing (b : bool) (s : Screen) :
  refreshing (state s) = true ->
  refreshing (state (start b s)) = true
  /\ priceData (state (start b s)) = priceData (state s).
Proof. intros H. destruct b; simpl; auto. Qed.

Lemma run_unsettled_refreshing (es : list event) :
  forall s s', run es s = Some s' -> none_settles es = true ->
               refreshing (state s) = true ->
               refreshing (state s') = true
               /\ priceData (state s') = priceData (state s).
Proof.
  induction es as [|e es IH]; intros s s' Hrun Hno Hr; simpl in Hrun.
  - injection Hrun as <-. auto.
  - simpl in Hno. apply andb_true_iff in Hno as [He Hno].
    destruct e as [ | | | | r now]; try discriminate He; cbn [step] in Hrun;
      match type of Hrun with
      | run es (start ?b s) = _ =>
          destruct (start_keeps_refreshing b s Hr) as [Hr' Hp];
          destruct (IH _ s' Hrun Hno Hr') as [H1 H2];
          split; [exact H1 | now rewrite H2]
      end.
Qed.

(** X9.  Pull-to-refresh never hides the prices.  From the moment the user
    pulls until a fetch settles, whatever else is started meanwhile (a timer
    firing, a retry, another pull), the three cards keep showing the prices
    that were on screen, not the spinner, even if the mount or timer fetch
    was showing the spinner when the user pulled. *)
Theorem refresh_keeps_cards (s : Screen) (es : list event) (s' : Screen) :
  run (PulledToRefresh :: es) s = Some s' ->
  none_settles es = true ->
  cards (state s')
  = [ PriceText (or (goldPrice1g (priceData (state s))) (VStr "0")) "1 gram";
      PriceText (or (goldPrice8g (priceData (state s))) (VStr "0")) "8 gram";
      PriceText (or (silverPrice1g (priceData (state s))) (VStr "0")) "1 gram" ].
Proof.
  intros Hrun Hno. cbn [run step] in Hrun.
  destruct (run_unsettled_refreshing es (start true s) s' Hrun Hno eq_refl)
    as [Hr Hp].
  unfold cards, PriceCard. rewrite Hr, Hp, andb_false_r. reflexivity.
Qed.

(** X9 at a pull during the mount fetch, followed by a timer firing: the
    cards show 0, the price of the empty snapshot, instead of the spinner. *)
Lemma refresh_keeps_cards_witness :
  cards (state (start false mounted))
  = [ActivityIndicator; ActivityIndicator; ActivityIndicator]
  /\ exists s',
      run [PulledToRefresh; TimerFired] (start false mounted) = Some s'
      /\ cards (state s')
         = [ PriceText (VStr "0") "1 gram"; PriceText (VStr "0") "8 gram";
             PriceText (VStr "0") "1 gram" ].
Proof.
  split; [reflexivity|]. eexists. split; [reflexivity|].
  rewrite (refresh_keeps_cards (start false mounted) [TimerFired] _ eq_refl eq_refl).
  reflexivity.
Defined.

End DashboardTraceFacts.

(* ===================================================================== *)
(** * Mounting the dashboard again *)
(* ===================================================================== *)

Module RemountFacts.
Import Lifecycle LifecycleFacts.

(** With no timer registered only the clock moves. *)
Lemma advance_idle (n : N) (e : Env) :
  timers e = ∅ ->
  advance n e = {| clock := (clock e + n)%N; timers := ∅; nextId := nextId e;
                   fetchPricesCalls := fetchPricesCalls e |}.
Proof.
  intros H. induction n as [|n IH] using N.peano_ind.
  - unfold advance. simpl. destruct e; simpl in *. subst. f_equal. lia.
  - rewrite advance_succ, IH, tick_no_timer by reflexivity. simpl. f_equal. lia.
Qed.

(** X10.  A dashboard that is unmounted and mounted again starts over: the
    second mount fetches at once, at the time [t1] of that mount, its timer
    is a new one, and the timer-driven calls that follow are at [t1 + 600000],
    [t1 + 1200000], ..., on the schedule of the second mount and not on the
    schedule of the first.  Nothing is called between the unmount and the
    second mount. *)
Theorem remount_restarts_timer (e0 : Env) (ms gap ms2 : N) :
  timers e0 = ∅ ->
  let e1 := advance ms (fst (mount e0)) in
  let e2 := advance gap (unmount (snd (mount e0)) e1) in
  let e3 := advance ms2 (fst (mount e2)) in
  let t1 := (clock e0 + ms + gap)%N in
  clock e2 = t1
  /\ fetchPricesCalls e2 = fetchPricesCalls e1
  /\ snd (mount e2) <> snd (mount e0)
  /\ fetchPricesCalls e3
     = (fetchPricesCalls e1 ++ (t1, false) :: timer_times t1 600000 ms2)%list.
Proof.
  intros H e1 e2 e3 t1.
  assert (timers e2 = ∅ /\ clock e2 = t1 /\ nextId e2 = S (nextId e0)
          /\ fetchPricesCalls e2 = fetchPricesCalls e1) as (Ht & Hc & Hn & Hf).
  { subst e2 e1 t1. rewrite (mount_running e0 H). cbn [fst snd].
    rewrite (advance_running _ 600000) by lia.
    destruct (unmount_running (clock e0) 600000 (nextId e0) (S (nextId e0))
                (fetchPricesCalls e0 ++ [(clock e0, false)])
                (N.to_nat (ms / 600000)) (ms mod 600000)) as [Hu _].
    rewrite (advance_idle gap _ Hu). cbn [timers clock nextId fetchPricesCalls].
    repeat split; try reflexivity.
    unfold unmount, clearInterval, running. cbn [clock].
    pose proof (N.div_mod ms 600000 ltac:(lia)). lia. }
  split; [exact Hc|]. split; [exact Hf|]. split.
  - rewrite (mount_running e2 Ht), (mount_running e0 H). cbn [snd]. lia.
  - subst e3. rewrite (mount_running e2 Ht). cbn [fst].
    rewrite (advance_running _ 600000) by lia.
    unfold running, timer_times. cbn [fetchPricesCalls].
    rewrite Hc, Hf, <- app_assoc. reflexivity.
Qed.

(** X10 at a mount at time 1000, an unmount 700 seconds later, and a
    second mount 100 seconds after that, observed for 20 minutes. *)
Lemma remount_restarts_timer_witness :
  fetchPricesCalls
    (advance 1200000
       (fst (mount (advance 100000
                      (unmount (snd (mount (boot 1000)))
                         (advance 700000 (fst (mount (boot 1000)))))))))
  = [(1000%N, false); (601000%N, false);
     (801000%N, false); (1401000%N, false); (2001000%N, false)].
Proof.
  destruct (remount_restarts_timer (boot 1000) 700000 100000 1200000 eq_refl)
    as (_ & _ & _ & H).
  cbv zeta in H. rewrite H.
  rewrite (mount_running (boot 1000) eq_refl). cbn [fst].
  rewrite (advance_running _ 600000) by lia. reflexivity.
Defined.

End RemountFacts.

(* ===================================================================== *)
(** * Navigation needs an answered request *)
(* ===================================================================== *)

Module LoginSessionFacts.
Import JS Login.

Lemma requests_app (a b : list effect) : requests (a ++ b) = (requests a + requests b)%nat.
Proof.
  induction a as [|[url | path] a IH]; simpl; [reflexivity | now rewrite IH | exact IH].
Qed.

Lemma navigations_app (a b : list effect) :
  navigations (a ++ b) = (navigations a + navigations b)%nat.
Proof.
  induction a as [|[url | path] a IH]; simpl; [reflexivity | exact IH | now rewrite IH].
Qed.

(** A press issues as many requests as it adds to the count in flight, and
    never navigates. *)
Lemma press_counts (st : State) :
  requests (snd (handleLogin_call st)) = length (snd (handleLogin_call st))
  /\ navigations (snd (handleLogin_call st)) = 0%nat.
Proof.
  destruct (LoginScreenFacts.press_result st) as [(E & _) | (E & _)];
    rewrite E; split; reflexivity.
Qed.

(** A settled request issues no request and navigates at most once. *)
Lemma settle_counts (r : fetch_result) (st : State) :
  requests (snd (handleLogin_settle r st)) = 0%nat
  /\ (navigations (snd (handleLogin_settle r st)) <= 1)%nat.
Proof.
  destruct (LoginScreenFacts.settle_shape r st) as (_ & _ & [E | E]);
    rewrite E; simpl; split; lia.
Qed.

Lemma step_balance (e : event) (s s' : Screen) :
  step e s = Some s' ->
  (navigations (effects s) + inflight s <= requests (effects s))%nat ->
  (navigations (effects s') + inflight s' <= requests (effects s'))%nat.
Proof.
  intros Hstep Hb. destruct e as [text | text | | r]; cbn [step] in Hstep.
  - destruct (_ || _); [discriminate|]. now injection Hstep as <-.
  - destruct (loading (state s)); [discriminate|]. now injection Hstep as <-.
  - destruct (loading (state s)); [discriminate|].
    pose proof (press_counts (state s)) as [H1 H2].
    set (out := handleLogin_call (state s)) in *. clearbody out.
    injection Hstep as <-. cbn [effects inflight].
    rewrite requests_app, navigations_app. lia.
  - destruct (inflight s) as [|n]; [discriminate|].
    pose proof (settle_counts r (state s)) as [H1 H2].
    set (out := handleLogin_settle r (state s)) in *. clearbody out.
    injection Hstep as <-. cbn [effects inflight].
    rewrite requests_app, navigations_app. lia.
Qed.

(** X11.  The login screen never navigates on its own.  Whatever the user
    types and presses and however the requests settle, the navigations to
    the dashboard performed so far plus the requests still in flight never
    exceed the login requests issued: each navigation answers a request of
    its own. *)
Theorem navigation_needs_request (es : list event) (s : Screen) :
  run es opened = Some s ->
  (navigations (effects s) + inflight s <= requests (effects s))%nat.
Proof.
  assert (forall s0, run es s0 = Some s ->
            (navigations (effects s0) + inflight s0 <= requests (effects s0))%nat ->
            (navigations (effects s) + inflight s <= requests (effects s))%nat) as H.
  { induction es as [|e es IH]; intros s0 Hrun Hb; simpl in Hrun.
    - now injection Hrun as <-.
    - destruct (step e s0) as [s1|] eqn:Hstep; [|discriminate].
      apply (IH s1 Hrun). exact (step_balance e s0 s1 Hstep Hb). }
  intros Hrun. apply (H opened Hrun). simpl. lia.
Qed.

(** X11 on a session with one refused and one accepted login. *)
Lemma navigation_needs_request_witness :
  exists s,
    run [ChangeMobileNumber "9876543210"; ChangePassword "wrong"; PressSignIn;
         Settled (answered (VObj (<["message" := VStr "Invalid password"]> ∅)));
         ChangePassword "secret"; PressSignIn;
         Settled (answered (VObj (<["status" := VStr "success"]> ∅)))]
        opened = Some s
    /\ navigations (effects s) = 1%nat /\ requests (effects s) = 2%nat
    /\ (navigations (effects s) + inflight s <= requests (effects s))%nat.
Proof.
  eexists. split; [reflexivity|]. split; [reflexivity|]. split; [reflexivity|].
  apply (navigation_needs_request
           [ChangeMobileNumber "9876543210"; ChangePassword "wrong"; PressSignIn;
            Settled (answered (VObj (<["message" := VStr "Invalid password"]> ∅)));
            ChangePassword "secret"; PressSignIn;
            Settled (answered (VObj (<["status" := VStr "success"]> ∅)))]).
  reflexivity.
Defined.

End LoginSessionFacts.

(* ===================================================================== *)
(** * The cards once prices have arrived *)
(* ===================================================================== *)

Module DashboardCardFacts.
Import JS Dashboard DashboardTraceFacts.






End DashboardCardFacts.

(* ===================================================================== *)
(** * Responses that are not ok *)
(* ===================================================================== *)

Module HttpStatusFacts.
Import JS.

(** X13 at a response with status 404 and a body that signals success:
    both screens show their generic failure message. *)
Lemma not_ok_generic_message_witness :
  let response :=
    {| status := 404;
       body := JsonValue (VObj (<["status" := VStr "success"]> ∅)) |} in
  Dashboard.error (Dashboard.fetchPrices_settle (FetchResolves response) 0
                     Dashboard.initial)
  = "Failed to fetch prices. Please try again."
  /\ Login.error (fst (Login.handleLogin_settle (FetchResolves response) Login.initial))
     = VStr "Login failed. Please check your credentials and try again.".
Proof.
  intros response.
  exact (Classification.not_ok_generic_message response 0 Login.initial
           Dashboard.initial eq_refl).
Defined.

End HttpStatusFacts.
